(** * The UN Population API client ([app/src/api_callers.py])

    A shallow embedding of the class [UN_Population]: credential
    resolution against the Streamlit session, the indicator catalog,
    the time-series fetch and the location discovery, together with the
    properties the specification states about them.

    Python values that come out of [response.json()] are an inductive
    type; the session, the text-input widget, the HTTP exchanges and the
    messages shown to the user form an explicit [world] threaded through
    a state-and-exception monad.  What the source takes from outside
    (the remote service, pandas' numeric conversion, the iteration order
    of a [set], the interpreter's wording of built-in errors) is the
    interface [Runtime].  The [print] calls that log each URL and the
    fields [df] and [df_cleaned], which no method reads, are left out. *)

From Stdlib Require Import ZArith QArith List String Ascii Bool Lia.
From Stdlib Require Import Permutation DecimalString.
Import ListNotations.

Local Set Warnings "-register-all".

Local Open Scope Z_scope.
Local Open Scope list_scope.
Local Open Scope string_scope.

(** ** Python values *)

(** What [json.loads] produces.  A float is the exact rational value of
    the finite double it denotes; objects keep their keys in order. *)
Inductive pyobj : Type :=
| VNone
| VBool (b : bool)
| VInt (z : Z)
| VFloat (q : Q)
| VStr (s : string)
| VList (l : list pyobj)
| VDict (d : list (string * pyobj)).

(** The built-in operations of the interpreter that the client applies
    to values of unchecked shape. *)
Inductive builtin_op : Type :=
| OpContains   (* [k in x] *)
| OpGetItem    (* [x[k]] *)
| OpIter       (* [for _ in x] *)
| OpHash.      (* use as a dict key or set element *)

Inductive exn : Type :=
| Exception (msg : string)            (* [raise Exception(f"...")] in the source *)
| KeyError (key : string)
| TypeError (op : builtin_op) (operand : pyobj)
| AttributeError (operand : pyobj) (attr : string)
| RequestException (msg : string)     (* raised by [requests.get] *)
| JSONDecodeError (msg : string).     (* raised by [response.json()] *)

Inductive result (A : Type) : Type :=
| Ok (a : A)
| Raise (e : exn).
Arguments Ok {A} a.
Arguments Raise {A} e.

(** ** The remote service and the session *)

Record response : Type := mkResponse {
  status_code : Z;
  json : string + pyobj   (* [inl m]: the body is not JSON, [.json()] raises *)
}.

Inductive http_outcome : Type :=
| ConnectionFailed (msg : string)
| Responded (r : response).

Record exchange : Type := mkExchange {
  ex_url : string;
  ex_authorization : string;
  ex_outcome : http_outcome
}.

Inductive ui_event : Type :=
| StWarning (msg : string)
| StInfo (msg : string)
| StError (msg : string)
| StTextInput (label : string).

(** [un_api_key] is [st.session_state.un_api_key]: [None] when the key
    is not in the session, [Some None] when it holds Python's [None]. *)
Record world : Type := mkWorld {
  un_api_key : option (option string);
  api_key_input : string;          (* value of the widget [api_key_input] *)
  exchanges : list exchange;       (* HTTP requests issued so far, oldest first *)
  ui : list ui_event               (* messages rendered so far, oldest first *)
}.

Class Runtime : Type := {
  (** answer of the service to the [n]-th request of the session *)
  http_get : nat -> string -> string -> http_outcome;
  (** [pd.to_numeric] of a column with [errors='raise']; [None] when it raises *)
  pd_to_numeric : list pyobj -> option (list pyobj);
  (** iteration order of a [set] built by adding the given distinct elements in order *)
  set_iteration : list pyobj -> list pyobj;
  (** [str(x)] for floats and containers *)
  str_other : pyobj -> string;
  (** the interpreter's text for a built-in error *)
  builtin_message : exn -> string
}.

(** ** The state-and-exception monad *)

Definition M (A : Type) : Type := world -> result A * world.

Definition ret {A} (a : A) : M A := fun w => (Ok a, w).

Definition bind {A B} (m : M A) (k : A -> M B) : M B :=
  fun w => match m w with
           | (Ok a, w') => k a w'
           | (Raise e, w') => (Raise e, w')
           end.

Definition raise {A} (e : exn) : M A := fun w => (Raise e, w).

(** [try: m except Exception as e: h e] *)
Definition try_except {A} (m : M A) (h : exn -> M A) : M A :=
  fun w => match m w with
           | (Ok a, w') => (Ok a, w')
           | (Raise e, w') => h e w'
           end.

Definition lift {A} (r : result A) : M A := fun w => (r, w).

Notation "x <- m ;; k" := (bind m (fun x => k))
  (at level 61, m at next level, right associativity).
Notation "m ;;; k" := (bind m (fun _ => k))
  (at level 61, right associativity).

Definition with_session (v : option string) (w : world) : world :=
  mkWorld (Some v) (api_key_input w) (exchanges w) (ui w).

Definition with_ui (e : ui_event) (w : world) : world :=
  mkWorld (un_api_key w) (api_key_input w) (exchanges w) (ui w ++ [e])%list.

Definition with_exchange (x : exchange) (w : world) : world :=
  mkWorld (un_api_key w) (api_key_input w) (exchanges w ++ [x])%list (ui w).

Definition read_session : M (option (option string)) :=
  fun w => (Ok (un_api_key w), w).

(** [st.session_state.un_api_key = v] *)
Definition write_session (v : option string) : M unit :=
  fun w => (Ok tt, with_session v w).

(** [st.warning], [st.info], [st.error] *)
Definition st_show (e : ui_event) : M unit :=
  fun w => (Ok tt, with_ui e w).

Definition st_text_input (label : string) : M string :=
  fun w => (Ok (api_key_input w), with_ui (StTextInput label) w).

(** [requests.get(url, headers={"Authorization": authorization})] *)
Definition requests_get `{Runtime} (url authorization : string) : M response :=
  fun w =>
    let out := http_get (List.length (exchanges w)) url authorization in
    let w' := with_exchange (mkExchange url authorization out) w in
    match out with
    | ConnectionFailed m => (Raise (RequestException m), w')
    | Responded r => (Ok r, w')
    end.

Definition response_json (r : response) : M pyobj :=
  match json r with
  | inl m => raise (JSONDecodeError m)
  | inr v => ret v
  end.

(** ** Built-in operations *)

Definition str_int (z : Z) : string := NilZero.string_of_int (Z.to_int z).

Definition py_str `{Runtime} (v : pyobj) : string :=
  match v with
  | VNone => "None"
  | VBool true => "True"
  | VBool false => "False"
  | VInt z => str_int z
  | VStr s => s
  | _ => str_other v
  end.

(** [str(e)] *)
Definition str_exn `{Runtime} (e : exn) : string :=
  match e with
  | Exception m => m
  | KeyError k => "'" ++ k ++ "'"
  | RequestException m => m
  | JSONDecodeError m => m
  | _ => builtin_message e
  end.

(** [needle in hay] on strings *)
Fixpoint contains_str (needle hay : string) : bool :=
  prefix needle hay ||
  match hay with
  | EmptyString => false
  | String _ rest => contains_str needle rest
  end.

Definition truthy_str (s : string) : bool := negb (s =? "").

Definition truthy_key (k : option string) : bool :=
  match k with
  | Some s => truthy_str s
  | None => false
  end.

Definition py_truthy (v : pyobj) : bool :=
  match v with
  | VNone => false
  | VBool b => b
  | VInt z => negb (z =? 0)%Z
  | VFloat q => negb (Qeq_bool q 0)
  | VStr s => truthy_str s
  | VList l => match l with [] => false | _ => true end
  | VDict d => match d with [] => false | _ => true end
  end.

Fixpoint dict_get (k : string) (d : list (string * pyobj)) : option pyobj :=
  match d with
  | [] => None
  | (k', v) :: rest => if k' =? k then Some v else dict_get k rest
  end.

Definition is_str (k : string) (v : pyobj) : bool :=
  match v with
  | VStr s => s =? k
  | _ => false
  end.

(** [k in c] for a string [k] *)
Definition py_contains (k : string) (c : pyobj) : result bool :=
  match c with
  | VDict d => Ok (match dict_get k d with Some _ => true | None => false end)
  | VList l => Ok (existsb (is_str k) l)
  | VStr s => Ok (contains_str k s)
  | _ => Raise (TypeError OpContains c)
  end.

(** [c[k]] for a string [k] *)
Definition py_getitem (c : pyobj) (k : string) : result pyobj :=
  match c with
  | VDict d => match dict_get k d with
               | Some v => Ok v
               | None => Raise (KeyError k)
               end
  | _ => Raise (TypeError OpGetItem c)
  end.

(** [c.get(k, default)] *)
Definition py_get (c : pyobj) (k : string) (default : pyobj) : result pyobj :=
  match c with
  | VDict d => match dict_get k d with
               | Some v => Ok v
               | None => Ok default
               end
  | _ => Raise (AttributeError c "get")
  end.

Fixpoint chars (s : string) : list pyobj :=
  match s with
  | EmptyString => []
  | String c rest => VStr (String c EmptyString) :: chars rest
  end.

(** the elements [for _ in c] visits *)
Definition py_iter (c : pyobj) : result (list pyobj) :=
  match c with
  | VList l => Ok l
  | VDict d => Ok (map (fun kv => VStr (fst kv)) d)
  | VStr s => Ok (chars s)
  | _ => Raise (TypeError OpIter c)
  end.

Definition hashable (v : pyobj) : bool :=
  match v with
  | VList _ | VDict _ => false
  | _ => true
  end.

Definition num_of (v : pyobj) : option Q :=
  match v with
  | VBool b => Some (if b then 1%Q else 0%Q)
  | VInt z => Some (inject_Z z)
  | VFloat q => Some q
  | _ => None
  end.

(** [a == b] on hashable values: numbers compare by value across
    [bool], [int] and [float]; strings with strings; [None] with [None]. *)
Definition py_eq (a b : pyobj) : bool :=
  match a, b with
  | VNone, VNone => true
  | VStr s, VStr t => s =? t
  | _, _ => match num_of a, num_of b with
            | Some x, Some y => Qeq_bool x y
            | _, _ => false
            end
  end.

Definition rbind {A B} (r : result A) (k : A -> result B) : result B :=
  match r with
  | Ok a => k a
  | Raise e => Raise e
  end.

Notation "'let*' x ':=' r 'in' k" := (rbind r (fun x => k))
  (at level 10, x name, r at level 100, k at level 200).

(** ** Dictionaries and sets keyed by Python values *)

(** The catalog [{name: id}]: bindings in insertion order, keys
    pairwise different under [py_eq]. *)
Definition pydict : Type := list (pyobj * pyobj).

Fixpoint pydict_get (k : pyobj) (d : pydict) : option pyobj :=
  match d with
  | [] => None
  | (k', v) :: rest => if py_eq k' k then Some v else pydict_get k rest
  end.

(** [d[k] = v]: an existing key keeps its place and its key object *)
Fixpoint pydict_set (k v : pyobj) (d : pydict) : pydict :=
  match d with
  | [] => [(k, v)]
  | (k', v') :: rest =>
      if py_eq k' k then (k', v) :: rest else (k', v') :: pydict_set k v rest
  end.

Definition pydict_keys (d : pydict) : list pyobj := map fst d.

(** [s.add(x)] on the elements of a set listed by first insertion *)
Definition set_add (x : pyobj) (s : list pyobj) : list pyobj :=
  if existsb (fun y => py_eq y x) s then s else (s ++ [x])%list.

(** [l[:limit]] *)
Definition slice_to {A} (l : list A) (limit : Z) : list A :=
  if (0 <=? limit)%Z then firstn (Z.to_nat limit) l
  else firstn (Z.to_nat (Z.of_nat (List.length l) + limit)) l.

(** ** Tables *)

(** One row of the table [get_data_for_indicator] builds. *)
Record record : Type := mkRecord {
  year : pyobj;
  value : pyobj;
  location : pyobj;
  variant : pyobj
}.

(** A [pd.DataFrame] built from a list of such rows.  The frame built
    from no rows, like [pd.DataFrame()], has no column at all; the
    dtype inference of the constructor is not represented: a cell is the
    Python object the row holds. *)
Definition DataFrame : Type := list record.

(** [df['year']] *)
Definition column_year (df : DataFrame) : result (list pyobj) :=
  match df with
  | [] => Raise (KeyError "year")
  | _ => Ok (map year df)
  end.

(** [pd.to_numeric(col, errors='ignore')]: the input when conversion fails *)
Definition to_numeric_ignore `{Runtime} (col : list pyobj) : list pyobj :=
  match pd_to_numeric col with
  | Some c => c
  | None => col
  end.

(** [df['year'] = col], rows and [col] taken position by position *)
Fixpoint assign_year (df : DataFrame) (col : list pyobj) : DataFrame :=
  match df, col with
  | r :: rs, y :: ys =>
      mkRecord y (value r) (location r) (variant r) :: assign_year rs ys
  | _, _ => df
  end.

(** ** The client *)

Record UN_Population : Type := mkClient {
  base_api_url : string;
  api_key : option string
}.

(** [__init__]: [environ] is [os.environ.get] *)
Definition init (environ : string -> option string) : UN_Population :=
  mkClient "https://population.un.org/dataportalapi/api/v1"
           (environ "UN_POPULATION_API_KEY").

Definition unauthorized_message : string :=
  "Unauthorized: Invalid API key. Please check your API key and try again.".

Definition empty_data : pyobj := VDict [("data", VList [])].

Section Client.

Context `{RT : Runtime}.
Variable self : UN_Population.

(** ['un_api_key' in st.session_state and st.session_state.un_api_key] *)
Definition session_key (cached : option (option string)) : option string :=
  match cached with
  | Some (Some k) => if truthy_str k then Some k else None
  | _ => None
  end.

Definition _get_api_key : M (option string) :=
  cached <- read_session ;;
  match session_key cached with
  | Some k => ret (Some k)
  | None =>
      if truthy_key (api_key self)
      then write_session (api_key self) ;;; ret (api_key self)
      else ret None
  end.

Definition _check_api_key_input : M (option string) :=
  k <- _get_api_key ;;
  if truthy_key k then ret k
  else
    st_show (StWarning "UN Population API requires an API key for authentication.") ;;;
    st_show (StInfo "You need to register for an API key at: https://population.un.org/dataportal/user/signup") ;;;
    key_input <- st_text_input "Enter your UN Population API key:" ;;
    if truthy_str key_input
    then write_session (Some key_input) ;;; ret (Some key_input)
    else ret None.

Definition bearer (k : option string) : string :=
  "Bearer " ++ match k with Some s => s | None => "None" end.

Definition get_indicators : M pyobj :=
  k <- _check_api_key_input ;;
  if negb (truthy_key k) then ret empty_data
  else
    let url := base_api_url self ++ "/indicators" in
    response <- requests_get url (bearer k) ;;
    if (status_code response =? 200)%Z then response_json response
    else if (status_code response =? 401)%Z then
      st_show (StError unauthorized_message) ;;;
      write_session None ;;;
      ret empty_data
    else
      raise (Exception ("Error fetching indicators: " ++ str_int (status_code response))).

(** the comprehension [{indicator['name']: indicator['id'] for indicator in ...}] *)
Fixpoint indicator_dict (items : list pyobj) (acc : pydict) : result pydict :=
  match items with
  | [] => Ok acc
  | indicator :: rest =>
      let* name := py_getitem indicator "name" in
      let* id := py_getitem indicator "id" in
      if hashable name then indicator_dict rest (pydict_set name id acc)
      else Raise (TypeError OpHash name)
  end.

(** lines 67-72: the catalog read off the body of the indicators response *)
Definition catalog_of (indicators_data : pyobj) : result pydict :=
  let* has_data := py_contains "data" indicators_data in
  if has_data : bool then
    let* data := py_getitem indicators_data "data" in
    let* items := py_iter data in
    indicator_dict items []
  else Ok [].

Definition get_indicator_names : M pydict :=
  indicators_data <- get_indicators ;;
  lift (catalog_of indicators_data).

Definition get_available_targets : M pyobj :=
  k <- _get_api_key ;;
  if negb (truthy_key k) then ret empty_data
  else
    let url := base_api_url self ++ "/targets" in
    response <- requests_get url (bearer k) ;;
    if (status_code response =? 200)%Z then response_json response
    else if (status_code response =? 401)%Z then
      st_show (StError unauthorized_message) ;;;
      write_session None ;;;
      ret empty_data
    else
      raise (Exception ("Error fetching targets: " ++ str_int (status_code response))).

(** [item.get(field, {}).get('name', 'Unknown')] *)
Definition nested_name (item : pyobj) (field : string) : result pyobj :=
  let* nested := py_get item field (VDict []) in
  py_get nested "name" (VStr "Unknown").

(** the dict display of lines 133-138 *)
Definition make_record (item : pyobj) : result record :=
  let* y := py_get item "timeLabel" VNone in
  let* v := py_get item "value" VNone in
  let* loc_name := nested_name item "location" in
  let* var_name := nested_name item "variant" in
  Ok (mkRecord y v loc_name var_name).

Fixpoint make_records (items : list pyobj) : result (list record) :=
  match items with
  | [] => Ok []
  | item :: rest =>
      let* r := make_record item in
      let* rs := make_records rest in
      Ok (r :: rs)
  end.

Definition data_url (indicator_id : pyobj) (locations : option (list Z)) : string :=
  match locations with
  | Some (l :: ls) =>
      base_api_url self ++ "/data/indicators/" ++ py_str indicator_id
        ++ "/locations/" ++ String.concat "," (map str_int (l :: ls))
  | _ =>
      base_api_url self ++ "/data/indicators/" ++ py_str indicator_id
        ++ "/locations/900"
  end.

(** lines 130-147: the table read off the body of the data response *)
Definition frame_of (data : pyobj) : result DataFrame :=
  let* has_data := py_contains "data" data in
  if has_data : bool then
    let* arr := py_getitem data "data" in
    let* items := py_iter arr in
    let* records := make_records items in
    let df : DataFrame := records in
    let* col := column_year df in
    Ok (assign_year df (to_numeric_ignore col))
  else Ok [].

(** the body of the [try] of [get_data_for_indicator] *)
Definition get_data_for_indicator_body
    (indicator_name : string) (locations : option (list Z)) : M DataFrame :=
  k <- _get_api_key ;;
  if negb (truthy_key k) then ret []
  else
    indicators_dict <- get_indicator_names ;;
    match pydict_get (VStr indicator_name) indicators_dict with
    | None =>
        raise (Exception ("Indicator name '" ++ indicator_name ++ "' not found"))
    | Some indicator_id =>
        let url := data_url indicator_id locations in
        response <- requests_get url (bearer k) ;;
        if (status_code response =? 200)%Z then
          data <- response_json response ;;
          lift (frame_of data)
        else if (status_code response =? 401)%Z then
          st_show (StError unauthorized_message) ;;;
          write_session None ;;;
          ret []
        else raise (Exception (str_int (status_code response)))
    end.

Definition get_data_for_indicator
    (indicator_name : string) (locations : option (list Z)) : M DataFrame :=
  try_except (get_data_for_indicator_body indicator_name locations)
    (fun e => raise (Exception ("Error fetching data for " ++ indicator_name
                                  ++ ": " ++ str_exn e))).

(** [name for name in indicators_dict.keys() if "Total Population" in name] *)
Fixpoint population_indicators (names : list pyobj) : result (list pyobj) :=
  match names with
  | [] => Ok []
  | name :: rest =>
      let* hit := py_contains "Total Population" name in
      let* more := population_indicators rest in
      Ok (if hit : bool then name :: more else more)
  end.

(** the loop of lines 182-184 *)
Fixpoint location_ids (items : list pyobj) (acc : list pyobj) : result (list pyobj) :=
  match items with
  | [] => Ok acc
  | item :: rest =>
      let* has_location := py_contains "location" item in
      if has_location : bool then
        let* loc := py_getitem item "location" in
        let* has_id := py_contains "id" loc in
        if has_id : bool then
          let* id := py_getitem loc "id" in
          if hashable id then location_ids rest (set_add id acc)
          else Raise (TypeError OpHash id)
        else location_ids rest acc
      else location_ids rest acc
  end.

(** lines 180-188: the identifiers read off the body of the data response *)
Definition locations_of (data : pyobj) (limit : Z) : result (list pyobj) :=
  let* has_data := py_contains "data" data in
  let* nonempty :=
    (if has_data : bool
     then let* arr := py_getitem data "data" in Ok (py_truthy arr)
     else Ok false) in
  if nonempty : bool then
    let* arr := py_getitem data "data" in
    let* items := py_iter arr in
    let* ids := location_ids items [] in
    Ok (slice_to (set_iteration ids) limit)
  else Ok [VInt 900].

(** [indicators_dict[name]] *)
Definition catalog_item (indicators_dict : pydict) (name : pyobj) : result pyobj :=
  match pydict_get name indicators_dict with
  | Some v => Ok v
  | None => Raise (KeyError (py_str name))
  end.

(** the body of the [try] of [get_top_populated_countries] *)
Definition get_top_populated_countries_body (limit : Z) : M (list pyobj) :=
  k <- _get_api_key ;;
  if negb (truthy_key k) then ret [VInt 900]
  else
    indicators_dict <- get_indicator_names ;;
    names <- lift (population_indicators (pydict_keys indicators_dict)) ;;
    match names with
    | [] => ret [VInt 900]
    | first :: _ =>
        indicator_id <- lift (catalog_item indicators_dict first) ;;
        let url := base_api_url self ++ "/data/indicators/" ++ py_str indicator_id
                     ++ "/locations/900" in
        response <- requests_get url (bearer k) ;;
        if (status_code response =? 200)%Z then
          data <- response_json response ;;
          lift (locations_of data limit)
        else if (status_code response =? 401)%Z then
          st_show (StError unauthorized_message) ;;;
          write_session None ;;;
          ret [VInt 900]
        else ret [VInt 900]
    end.

Definition get_top_populated_countries (limit : Z) : M (list pyobj) :=
  try_except (get_top_populated_countries_body limit) (fun _ => ret [VInt 900]).

End Client.

(** ** The dashboard ([UN_population/app/src/streamlit_app.py]) *)

(** What the script keeps in [st.session_state] besides the credential:
    [None] is a key that is not in the session. *)
Record app_session : Type := mkApp {
  all_indicators : option pydict;
  selected_locations : option (list Z)
}.

Section Dashboard.

Context `{RT : Runtime}.

(** [os.environ.get], read by [UN_Population()] *)
Variable environ : string -> option string.

(** [str.lower] *)
Variable lower : string -> string.

(** lines 66-75: the catalog is loaded when the session has none (the
    spinner shown meanwhile is left out) *)
Definition load_indicators (app : app_session) : M app_session :=
  match all_indicators app with
  | Some _ => ret app
  | None =>
      try_except
        (let un_population := init environ in
         names <- get_indicator_names un_population ;;
         ret (mkApp (Some names) (Some [900%Z])))
        (fun e =>
           st_show (StError ("Error loading indicators: " ++ str_exn e)) ;;;
           ret (mkApp (Some []) (Some [900%Z])))
  end.

(** lines 86-87: the comprehension
    [{name: id for name, id in all_indicators.items()
      if search_term.lower() in name.lower()}] *)
Fixpoint filtered_indicators (search_term : string) (items : pydict) (acc : pydict)
  : result pydict :=
  match items with
  | [] => Ok acc
  | (name, id) :: rest =>
      match name with
      | VStr s =>
          if contains_str (lower search_term) (lower s)
          then filtered_indicators search_term rest (pydict_set name id acc)
          else filtered_indicators search_term rest acc
      | _ => Raise (AttributeError name "lower")
      end
  end.

(** lines 92-93: [list(filtered_indicators.keys())[:3] if filtered_indicators else []] *)
Definition default_selection (filtered : pydict) : list pyobj :=
  match filtered with
  | [] => []
  | _ => slice_to (pydict_keys filtered) 3
  end.

End Dashboard.

(** ** A scripted runtime, for running the client on concrete inputs *)

(** Conversion of a column of decimal integer literals (and integers). *)
Definition int_of_label (v : pyobj) : option pyobj :=
  match v with
  | VInt z => Some (VInt z)
  | VStr s => option_map (fun i => VInt (Z.of_int i)) (NilZero.int_of_string s)
  | _ => None
  end.

Fixpoint int_column (col : list pyobj) : option (list pyobj) :=
  match col with
  | [] => Some []
  | v :: rest =>
      match int_of_label v, int_column rest with
      | Some i, Some more => Some (i :: more)
      | _, _ => None
      end
  end.

(** Slot of a small non-negative integer in a hash table of 8 entries,
    the table CPython allocates for a fresh [set]. *)
Definition slot (v : pyobj) : Z :=
  match v with
  | VInt z => z mod 8
  | _ => 0
  end.

Fixpoint insert_by_slot (x : pyobj) (l : list pyobj) : list pyobj :=
  match l with
  | [] => [x]
  | y :: rest =>
      if (slot x <? slot y)%Z then x :: y :: rest else y :: insert_by_slot x rest
  end.

(** Elements by increasing slot: the order in which CPython visits a
    set of at most four small integers of different slots. *)
Definition by_slot (l : list pyobj) : list pyobj :=
  fold_right insert_by_slot [] l.

(** The service answers the [n]-th request with the [n]-th entry of a
    script and refuses the connection once the script is exhausted. *)
Definition scripted (script : list http_outcome) : Runtime := {|
  http_get := fun n _ _ => nth n script (ConnectionFailed "connection refused");
  pd_to_numeric := int_column;
  set_iteration := by_slot;
  str_other := fun _ => "<object>";
  builtin_message := fun _ => "built-in error"
|}.

Definition respond (status : Z) (body : pyobj) : http_outcome :=
  Responded (mkResponse status (inr body)).

Definition fresh_session : world := mkWorld None "" [] [].

(** A client whose environment key is ["bad"], a fresh session, and a
    service that answers the first request with 401. *)
Definition rejecting : Runtime := scripted [respond 401 VNone].

Definition bad_client : UN_Population :=
  init (fun _ => Some "bad").

(** A client with a usable environment key, and a service that answers
    the catalog request with one indicator and the data request with
    [data]. *)
Definition keyed_client : UN_Population := init (fun _ => Some "secret").

Definition catalog_body : pyobj :=
  VDict [("data", VList [VDict [("name", VStr "Total Population"); ("id", VInt 49)]])].

Definition serving (data : http_outcome) : Runtime :=
  scripted [respond 200 catalog_body; data].

(** the example of the specification: one observation for the World in 2020 *)
Definition world_2020 : pyobj :=
  VDict [("timeLabel", VStr "2020"); ("value", VFloat (7800000000 # 1));
         ("location", VDict [("name", VStr "World"); ("id", VInt 900)]);
         ("variant", VDict [("name", VStr "Median")])].

Definition series_body : pyobj := VDict [("data", VList [world_2020])].

(** two observations, for the locations 1 and 8 in this order *)
Definition two_locations_body : pyobj :=
  VDict [("data", VList [VDict [("location", VDict [("id", VInt 1)])];
                         VDict [("location", VDict [("id", VInt 8)])]])].

(** the same name under two identifiers *)
Definition duplicate_body : pyobj :=
  VDict [("data", VList [VDict [("name", VStr "Total Population"); ("id", VInt 49)];
                         VDict [("name", VStr "Total Population"); ("id", VInt 50)]])].

(** [str.lower] on ASCII text *)
Definition lower_char (c : ascii) : ascii :=
  let n := nat_of_ascii c in
  if ((65 <=? n) && (n <=? 90))%nat then ascii_of_nat (n + 32) else c.

Fixpoint lower_ascii (s : string) : string :=
  match s with
  | EmptyString => EmptyString
  | String c rest => String (lower_char c) (lower_ascii rest)
  end.

(** an indicators response with three names, one of them not about population *)
Definition three_indicators_body : pyobj :=
  VDict [("data", VList [VDict [("name", VStr "Median Age"); ("id", VInt 67)];
                         VDict [("name", VStr "Total Population"); ("id", VInt 49)];
                         VDict [("name", VStr "Total Population by sex"); ("id", VInt 70)]])].

(** the World observed in 2020 and in 2021 *)
Definition two_years_body : pyobj :=
  VDict [("data", VList [world_2020;
                         VDict [("timeLabel", VStr "2021"); ("value", VInt 7900000000);
                                ("location", VDict [("name", VStr "World"); ("id", VInt 900)]);
                                ("variant", VDict [("name", VStr "Median")])]])].

(** the second observation has a null location *)
Definition null_location : pyobj :=
  VDict [("timeLabel", VStr "2021"); ("location", VNone)].

Definition bad_item_body : pyobj := VDict [("data", VList [world_2020; null_location])].

(** the second indicator has no identifier *)
Definition incomplete_body : pyobj :=
  VDict [("data", VList [VDict [("name", VStr "Total Population"); ("id", VInt 49)];
                         VDict [("name", VStr "Median Age")]])].

Definition three_indicators : pydict :=
  [(VStr "Median Age", VInt 67); (VStr "Total Population", VInt 49);
   (VStr "Total Population by sex", VInt 70)].

(** a client without an environment key *)
Definition keyless_client : UN_Population := init (fun _ => None).

(** nothing in the session, a key typed in the widget *)
Definition typed_session : world := mkWorld None "typed" [] [].

(** ** Vocabulary of the properties *)

(** the HTTP exchanges a call added to the world *)
Definition new_exchanges (before after : world) : list exchange :=
  skipn (List.length (exchanges before)) (exchanges after).

Definition is_401 (x : exchange) : bool :=
  match ex_outcome x with
  | Responded r => (status_code r =? 401)%Z
  | ConnectionFailed _ => false
  end.

(** some response received between [before] and [after] had status 401 *)
Definition unauthorized_between (before after : world) : bool :=
  existsb is_401 (new_exchanges before after).

(** The four operations of the client that talk to the service. *)
Inductive operation : Type :=
| ListIndicators
| ListTargets
| FetchSeries (indicator_name : string) (locations : option (list Z))
| DiscoverLocations (limit : Z).

(** the world an operation leaves *)
Definition world_after `{RT : Runtime} (self : UN_Population)
    (op : operation) (w : world) : world :=
  match op with
  | ListIndicators => snd (get_indicators self w)
  | ListTargets => snd (get_available_targets self w)
  | FetchSeries name locations => snd (get_data_for_indicator self name locations w)
  | DiscoverLocations limit => snd (get_top_populated_countries self limit w)
  end.

(** only the session differs *)
Definition same_channels (w w' : world) : Prop :=
  exchanges w' = exchanges w /\ ui w' = ui w /\ api_key_input w' = api_key_input w.

(** the session holds the non-empty key [k] *)
Definition cached (k : string) (w : world) : Prop :=
  un_api_key w = Some (Some k) /\ truthy_str k = true.

(** the exchange the catalog request adds in world [w] with key [k] *)
Definition indicators_exchange `{RT : Runtime} (self : UN_Population)
    (k : string) (w : world) : exchange :=
  let url := base_api_url self ++ "/indicators" in
  mkExchange url (bearer (Some k))
             (http_get (List.length (exchanges w)) url (bearer (Some k))).

(** what the 401 branch does to the world *)
Definition cleared (w : world) : world :=
  with_session None (with_ui (StError unauthorized_message) w).

(** the key the constructor read from the environment, when it is usable *)
Definition environment_key (self : UN_Population) : option string :=
  if truthy_key (api_key self) then api_key self else None.

(** the body is an object whose [data] is the empty array *)
Definition has_empty_data (body : pyobj) : bool :=
  match body with
  | VDict d => match dict_get "data" d with
               | Some (VList []) => true
               | _ => false
               end
  | _ => false
  end.

(** an exchange that failed: no connection, a status other than 200,
    or a 200 whose data array is empty *)
Definition degraded (x : exchange) : bool :=
  match ex_outcome x with
  | ConnectionFailed _ => true
  | Responded r =>
      if (status_code r =? 200)%Z then
        match json r with
        | inr body => has_empty_data body
        | inl _ => false
        end
      else true
  end.

Definition degraded_between (before after : world) : bool :=
  existsb degraded (new_exchanges before after).

Definition not_found_message (indicator_name : string) : string :=
  "Indicator name '" ++ indicator_name ++ "' not found".

(** the message of the exception [get_data_for_indicator] re-raises *)
Definition wrapped (indicator_name detail : string) : string :=
  "Error fetching data for " ++ indicator_name ++ ": " ++ detail.

(** the response to the first request of a call, the catalog request *)
Definition catalog_response (before after : world) : option response :=
  match new_exchanges before after with
  | x :: _ => match ex_outcome x with
              | Responded r => Some r
              | ConnectionFailed _ => None
              end
  | [] => None
  end.

(** the response to the second request of a call, the data request *)
Definition data_response (before after : world) : option response :=
  match new_exchanges before after with
  | _ :: x :: _ => match ex_outcome x with
                   | Responded r => Some r
                   | ConnectionFailed _ => None
                   end
  | _ => None
  end.

(** [item[field]['name']] does not exist: the key [field] is missing,
    or it holds a dict without a [name] key *)
Definition name_absent (field : string) (d : list (string * pyobj)) : Prop :=
  dict_get field d = None
  \/ exists nested, dict_get field d = Some (VDict nested)
                    /\ dict_get "name" nested = None.

(** the name and identifier of an item of the indicators response *)
Definition item_name_id (item : pyobj) : option (pyobj * pyobj) :=
  match item with
  | VDict d => match dict_get "name" d, dict_get "id" d with
               | Some n, Some i => Some (n, i)
               | _, _ => None
               end
  | _ => None
  end.

(** an item the comprehension accepts: a dict with a hashable [name] and an [id] *)
Definition indicator_item (item : pyobj) : Prop :=
  exists n i, item_name_id item = Some (n, i) /\ hashable n = true.

(** the identifier of the last item named [q] *)
Fixpoint last_id (q : pyobj) (items : list pyobj) : option pyobj :=
  match items with
  | [] => None
  | item :: rest =>
      match last_id q rest with
      | Some i => Some i
      | None => match item_name_id item with
                | Some (n, i) => if py_eq n q then Some i else None
                | None => None
                end
      end
  end.

(** pandas returns a column as long as the one it was given *)
Definition numeric_keeps_length `{RT : Runtime} : Prop :=
  forall col c, pd_to_numeric col = Some c -> List.length c = List.length col.

(** a [set] is iterated in some order of its elements *)
Definition set_is_unordered `{RT : Runtime} : Prop :=
  forall l, Permutation (set_iteration l) l.

(** no two elements are equal in Python's sense *)
Inductive distinct : list pyobj -> Prop :=
| distinct_nil : distinct []
| distinct_cons x l :
    (forall y, In y l -> py_eq x y = false) -> distinct l -> distinct (x :: l).

(** [item['location']['id']] *)
Definition item_id (item : pyobj) : result pyobj :=
  let* loc := py_getitem item "location" in
  py_getitem loc "id".

(** what [_check_api_key_input] renders when no key is known *)
Definition key_prompt : list ui_event :=
  [StWarning "UN Population API requires an API key for authentication.";
   StInfo "You need to register for an API key at: https://population.un.org/dataportal/user/signup";
   StTextInput "Enter your UN Population API key:"].

(** the request carries a non-empty bearer token *)
Definition authenticated (x : exchange) : Prop :=
  exists s, truthy_str s = true /\ ex_authorization x = "Bearer " ++ s.

(** the most requests an operation issues *)
Definition max_requests (op : operation) : nat :=
  match op with
  | ListIndicators | ListTargets => 1
  | FetchSeries _ _ | DiscoverLocations _ => 2
  end.

(** the operation starts from the catalog *)
Definition needs_catalog (op : operation) : bool :=
  match op with
  | ListTargets => false
  | _ => true
  end.

(** the last segment of the data URL: the identifiers joined by commas,
    or the World when there is none *)
Definition locations_path (locations : option (list Z)) : string :=
  match locations with
  | Some (l :: ls) => String.concat "," (map str_int (l :: ls))
  | _ => "900"
  end.

(** the exchange a request to [url] with the key [k] adds in world [w] *)
Definition issued `{RT : Runtime} (url k : string) (w : world) : exchange :=
  mkExchange url (bearer (Some k))
             (http_get (List.length (exchanges w)) url (bearer (Some k))).

(** the URL of the data request of the discovery *)
Definition discovery_url `{RT : Runtime} (self : UN_Population) (indicator_id : pyobj)
  : string :=
  base_api_url self ++ "/data/indicators/" ++ py_str indicator_id ++ "/locations/900".

(** the catalog name is a string that contains ["Total Population"] *)
Definition mentions_total_population (name : pyobj) : bool :=
  match name with
  | VStr s => contains_str "Total Population" s
  | _ => false
  end.

Definition is_string (v : pyobj) : Prop := exists s, v = VStr s.

(** the names of the items of the indicators response, in order *)
Definition item_names (items : list pyobj) : list pyobj :=
  flat_map (fun item => match item_name_id item with
                        | Some (n, _) => [n]
                        | None => []
                        end) items.

(** the elements of a list in the order of their first appearance *)
Definition first_appearances (l : list pyobj) : list pyobj :=
  fold_left (fun seen x => set_add x seen) l [].

(** the item is at the location [id] *)
Definition located_at (id : pyobj) (item : pyobj) : Prop :=
  exists d loc, item = VDict d /\ dict_get "location" d = Some (VDict loc)
                /\ dict_get "id" loc = Some id.

(** the two listings: the method and the word its error message uses *)
Definition listing `{RT : Runtime} (self : UN_Population) (targets : bool) : M pyobj :=
  if targets then get_available_targets self else get_indicators self.

Definition listed (targets : bool) : string :=
  if targets then "targets" else "indicators".

(** the catalog name is a string whose lower case contains the lower
    case of the search term *)
Definition matches_search (lower : string -> string) (search_term : string)
    (binding : pyobj * pyobj) : bool :=
  match fst binding with
  | VStr s => contains_str (lower search_term) (lower s)
  | _ => false
  end.

(** ** Properties *)

Lemma skipn_length_app {A} (l l' : list A) : skipn (List.length l) (l ++ l') = l'.
Proof. induction l; simpl; auto. Qed.

Lemma skipn_length_self {A} (l : list A) : skipn (List.length l) l = [].
Proof. induction l; simpl; auto. Qed.

Lemma prefix_app (a b : string) : prefix a (a ++ b) = true.
Proof.
  induction a as [|c a IH]; simpl.
  - destruct b; reflexivity.
  - destruct (ascii_dec c c); [exact IH | congruence].
Qed.

Lemma contains_str_prefix (n h : string) :
  prefix n h = true -> contains_str n h = true.
Proof. intros E. destruct h; cbn [contains_str]; rewrite E; reflexivity. Qed.

Lemma prefix_self (a : string) : prefix a a = true.
Proof.
  induction a as [|c a IH]; simpl; [reflexivity|].
  destruct (ascii_dec c c); [exact IH | congruence].
Qed.

Lemma contains_str_end (n a : string) : contains_str n (a ++ n) = true.
Proof.
  induction a as [|c a IH]; simpl.
  - apply contains_str_prefix, prefix_self.
  - rewrite IH. apply orb_true_r.
Qed.

Lemma string_app_assoc (a b c : string) : (a ++ b) ++ c = a ++ b ++ c.
Proof. induction a as [|x a IH]; simpl; [reflexivity|]. now rewrite IH. Qed.

Lemma contains_str_last (n a b : string) : contains_str n (a ++ b ++ n) = true.
Proof. rewrite <- string_app_assoc. apply contains_str_end. Qed.

Lemma contains_str_app (n a b : string) : contains_str n (a ++ n ++ b) = true.
Proof.
  induction a as [|c a IH]; simpl.
  - apply contains_str_prefix, prefix_app.
  - rewrite IH. apply orb_true_r.
Qed.

Section Properties.

Context `{RT : Runtime}.

Variable self : UN_Population.

Ltac run :=
  unfold bind, ret, raise, lift, try_except, read_session, write_session,
    st_show, st_text_input, requests_get, response_json in *; cbn in *.

Ltac split_match :=
  match goal with
  | |- context [match ?x with _ => _ end] =>
      lazymatch x with
      | context [match _ with _ => _ end] => fail
      | _ => destruct x eqn:?; cbn in *
      end
  end.

Ltac status_facts :=
  repeat match goal with
         | H : (_ =? _)%Z = true |- _ => apply Z.eqb_eq in H
         | H : (_ =? _)%Z = false |- _ => apply Z.eqb_neq in H
         | H : _ || _ = true |- _ => apply orb_true_iff in H; destruct H
         end.

(** *** Credential resolution *)

Lemma get_api_key_cached (w : world) (k : string) :
  cached k w -> _get_api_key self w = (Ok (Some k), w).
Proof.
  intros [E T]. unfold _get_api_key, session_key. run. rewrite E, T. reflexivity.
Qed.

Lemma get_api_key_cases (w : world) :
  (exists k w', _get_api_key self w = (Ok (Some k), w')
                /\ cached k w' /\ same_channels w w')
  \/ _get_api_key self w = (Ok None, w).
Proof.
  unfold _get_api_key, session_key, cached, same_channels. run.
  destruct (api_key self) as [e|] eqn:A; cbn [truthy_key];
    [destruct (truthy_str e) eqn:Te|];
    (destruct (un_api_key w) as [[k|]|] eqn:E; [destruct (truthy_str k) eqn:T|..]);
    first [ right; reflexivity
          | left; exists k, w; now auto
          | left; exists e, (with_session (Some e) w); cbn; now auto ].
Qed.

Lemma check_api_key_input_cached (w : world) (k : string) :
  cached k w -> _check_api_key_input self w = (Ok (Some k), w).
Proof.
  intros C. unfold _check_api_key_input, bind.
  rewrite (get_api_key_cached w k C). cbn. destruct C as [_ T]. rewrite T. reflexivity.
Qed.

(** *** The catalog request *)

Lemma get_indicators_cached (w : world) (k : string) :
  cached k w ->
  get_indicators self w =
  let x := indicators_exchange self k w in
  match ex_outcome x with
  | ConnectionFailed m => (Raise (RequestException m), with_exchange x w)
  | Responded r =>
      if (status_code r =? 200)%Z then
        (match json r with
         | inl m => Raise (JSONDecodeError m)
         | inr v => Ok v
         end, with_exchange x w)
      else if (status_code r =? 401)%Z then (Ok empty_data, cleared (with_exchange x w))
      else (Raise (Exception ("Error fetching indicators: " ++ str_int (status_code r))),
            with_exchange x w)
  end.
Proof.
  intros C. unfold get_indicators, bind at 1.
  rewrite (check_api_key_input_cached w k C).
  destruct C as [_ T]. cbn [truthy_key]. rewrite T. cbn [negb].
  unfold indicators_exchange. run.
  repeat split_match; reflexivity.
Qed.

Lemma catalog_of_empty_data : catalog_of empty_data = Ok [].
Proof. reflexivity. Qed.

Lemma get_indicator_names_cached (w : world) (k : string) :
  cached k w ->
  get_indicator_names self w =
  let x := indicators_exchange self k w in
  match ex_outcome x with
  | ConnectionFailed m => (Raise (RequestException m), with_exchange x w)
  | Responded r =>
      if (status_code r =? 200)%Z then
        (match json r with
         | inl m => Raise (JSONDecodeError m)
         | inr v => catalog_of v
         end, with_exchange x w)
      else if (status_code r =? 401)%Z then (Ok [], cleared (with_exchange x w))
      else (Raise (Exception ("Error fetching indicators: " ++ str_int (status_code r))),
            with_exchange x w)
  end.
Proof.
  intros C. unfold get_indicator_names, bind.
  rewrite (get_indicators_cached w k C). cbn.
  repeat split_match; reflexivity.
Qed.

Lemma check_api_key_input_cases (w : world) :
  (exists k w', _check_api_key_input self w = (Ok (Some k), w')
                /\ cached k w' /\ exchanges w' = exchanges w)
  \/ (exists w', _check_api_key_input self w = (Ok None, w')
                 /\ exchanges w' = exchanges w /\ un_api_key w' = un_api_key w).
Proof.
  unfold _check_api_key_input, bind.
  destruct (get_api_key_cases w) as [(k & w' & E & C & S)|E]; rewrite E.
  - left. exists k, w'. destruct C as [Ek T]. cbn. rewrite T.
    repeat split; auto. apply S.
  - run. destruct (truthy_str (api_key_input w)) eqn:T.
    + left. eexists _, _. split; [reflexivity|]. unfold cached. cbn. auto.
    + right. eexists. split; [reflexivity|]. cbn. auto.
Qed.

(** Resolving the credential first does not change what an operation does. *)
Lemma get_indicators_resolved (w w' : world) (k : string) :
  _check_api_key_input self w = (Ok (Some k), w') -> cached k w' ->
  get_indicators self w = get_indicators self w'.
Proof.
  intros E C. unfold get_indicators, bind.
  rewrite E, (check_api_key_input_cached w' k C). reflexivity.
Qed.

Lemma get_available_targets_resolved (w w' : world) (k : string) :
  _get_api_key self w = (Ok (Some k), w') -> cached k w' ->
  get_available_targets self w = get_available_targets self w'.
Proof.
  intros E C. unfold get_available_targets, bind.
  rewrite E, (get_api_key_cached w' k C). reflexivity.
Qed.

Lemma get_data_for_indicator_resolved (w w' : world) (k : string) name locations :
  _get_api_key self w = (Ok (Some k), w') -> cached k w' ->
  get_data_for_indicator self name locations w
  = get_data_for_indicator self name locations w'.
Proof.
  intros E C. unfold get_data_for_indicator, try_except, get_data_for_indicator_body.
  unfold bind. rewrite E, (get_api_key_cached w' k C). reflexivity.
Qed.

Lemma get_top_populated_countries_resolved (w w' : world) (k : string) limit :
  _get_api_key self w = (Ok (Some k), w') -> cached k w' ->
  get_top_populated_countries self limit w
  = get_top_populated_countries self limit w'.
Proof.
  intros E C. unfold get_top_populated_countries, try_except,
    get_top_populated_countries_body.
  unfold bind. rewrite E, (get_api_key_cached w' k C). reflexivity.
Qed.

(** *** A 401 clears the cached credential *)

Lemma new_exchanges_same (w w' after : world) :
  exchanges w' = exchanges w -> new_exchanges w after = new_exchanges w' after.
Proof. unfold new_exchanges. intros ->. reflexivity. Qed.

Lemma unauthorized_between_same (w w' after : world) :
  exchanges w' = exchanges w ->
  unauthorized_between w after = unauthorized_between w' after.
Proof.
  unfold unauthorized_between. intros E. rewrite (new_exchanges_same w w' after E).
  reflexivity.
Qed.

Lemma unauthorized_between_none (w w' : world) :
  exchanges w' = exchanges w -> unauthorized_between w w' = false.
Proof.
  unfold unauthorized_between, new_exchanges. intros ->.
  rewrite skipn_length_self. reflexivity.
Qed.

Lemma cleared_from_run {A} (m : M A) (w : world) :
  (forall r w', m w = (r, w') ->
                unauthorized_between w w' = true -> un_api_key w' = Some None) ->
  unauthorized_between w (snd (m w)) = true -> un_api_key (snd (m w)) = Some None.
Proof. intros H. destruct (m w) as [r w'] eqn:E. cbn. apply (H r w' eq_refl). Qed.

Ltac unauthorized_cases :=
  try (let R := fresh in intros R; injection R as <- <-);
  unfold unauthorized_between, new_exchanges, cleared; cbn;
  rewrite <- ?app_assoc, ?skipn_length_self, ?skipn_length_app; cbn;
  unfold is_401; cbn;
  repeat match goal with H : ex_outcome _ = _ |- _ => cbn in H; rewrite H end;
  intros;
  repeat match goal with
         | X : ?a = _, H : context [match ?a with _ => _ end] |- _ =>
             rewrite X in H; cbn in H
         end;
  status_facts; subst; try reflexivity; try congruence; try lia.

Lemma get_indicators_401_cached (w : world) (k : string) :
  cached k w ->
  unauthorized_between w (snd (get_indicators self w)) = true ->
  un_api_key (snd (get_indicators self w)) = Some None.
Proof.
  intros C. rewrite (get_indicators_cached w k C). cbn zeta.
  destruct (ex_outcome (indicators_exchange self k w)) as [m|r] eqn:X;
    [|destruct (status_code r =? 200)%Z eqn:S2;
      [|destruct (status_code r =? 401)%Z eqn:S4]];
    unauthorized_cases.
Qed.

Lemma get_indicators_401 (w : world) :
  unauthorized_between w (snd (get_indicators self w)) = true ->
  un_api_key (snd (get_indicators self w)) = Some None.
Proof.
  destruct (check_api_key_input_cases w) as [(k & w' & E & C & S)|(w' & E & S & _)].
  - rewrite (get_indicators_resolved w w' k E C), (unauthorized_between_same w w' _ S).
    apply (get_indicators_401_cached w' k C).
  - unfold get_indicators, bind. rewrite E. cbn.
    rewrite (unauthorized_between_none w w' S). discriminate.
Qed.

Lemma get_available_targets_401_cached (w : world) (k : string) :
  cached k w ->
  unauthorized_between w (snd (get_available_targets self w)) = true ->
  un_api_key (snd (get_available_targets self w)) = Some None.
Proof.
  intros C. apply cleared_from_run. intros res w'.
  unfold get_available_targets, bind.
  rewrite (get_api_key_cached w k C). destruct C as [_ T]. cbn [truthy_key].
  rewrite T. run.
  repeat split_match; unauthorized_cases.
Qed.

Lemma get_available_targets_401 (w : world) :
  unauthorized_between w (snd (get_available_targets self w)) = true ->
  un_api_key (snd (get_available_targets self w)) = Some None.
Proof.
  destruct (get_api_key_cases w) as [(k & w' & E & C & S & _)|E].
  - rewrite (get_available_targets_resolved w w' k E C),
      (unauthorized_between_same w w' _ S).
    apply (get_available_targets_401_cached w' k C).
  - unfold get_available_targets, bind. rewrite E. cbn.
    rewrite (unauthorized_between_none w w eq_refl). discriminate.
Qed.

Lemma get_data_for_indicator_401_cached (w : world) (k : string) name locations :
  cached k w ->
  unauthorized_between w (snd (get_data_for_indicator self name locations w)) = true ->
  un_api_key (snd (get_data_for_indicator self name locations w)) = Some None.
Proof.
  intros C. apply cleared_from_run. intros res w'.
  unfold get_data_for_indicator, try_except, get_data_for_indicator_body.
  unfold bind at 1. rewrite (get_api_key_cached w k C).
  pose proof C as [_ T]. cbn [truthy_key]. rewrite T. cbn [negb].
  unfold bind at 1. rewrite (get_indicator_names_cached w k C). cbn zeta.
  destruct (ex_outcome (indicators_exchange self k w)) as [m|r] eqn:X;
    [|destruct (status_code r =? 200)%Z eqn:S2;
      [destruct (json r) as [m|v]; [|destruct (catalog_of v) as [cat|e]]
      |destruct (status_code r =? 401)%Z eqn:S4]];
    run; repeat split_match; unauthorized_cases.
Qed.

Lemma get_data_for_indicator_401 (w : world) name locations :
  unauthorized_between w (snd (get_data_for_indicator self name locations w)) = true ->
  un_api_key (snd (get_data_for_indicator self name locations w)) = Some None.
Proof.
  destruct (get_api_key_cases w) as [(k & w' & E & C & S & _)|E].
  - rewrite (get_data_for_indicator_resolved w w' k name locations E C),
      (unauthorized_between_same w w' _ S).
    apply (get_data_for_indicator_401_cached w' k name locations C).
  - unfold get_data_for_indicator, try_except, get_data_for_indicator_body, bind.
    rewrite E. cbn. rewrite (unauthorized_between_none w w eq_refl). discriminate.
Qed.

Lemma get_top_populated_countries_401_cached (w : world) (k : string) limit :
  cached k w ->
  unauthorized_between w (snd (get_top_populated_countries self limit w)) = true ->
  un_api_key (snd (get_top_populated_countries self limit w)) = Some None.
Proof.
  intros C. apply cleared_from_run. intros res w'.
  unfold get_top_populated_countries, try_except,
    get_top_populated_countries_body.
  unfold bind at 1. rewrite (get_api_key_cached w k C).
  pose proof C as [_ T]. cbn [truthy_key]. rewrite T. cbn [negb].
  unfold bind at 1. rewrite (get_indicator_names_cached w k C). cbn zeta.
  destruct (ex_outcome (indicators_exchange self k w)) as [m|r] eqn:X;
    [|destruct (status_code r =? 200)%Z eqn:S2;
      [destruct (json r) as [m|v]; [|destruct (catalog_of v) as [cat|e]]
      |destruct (status_code r =? 401)%Z eqn:S4]];
    run; repeat split_match; unauthorized_cases.
Qed.

Lemma get_top_populated_countries_401 (w : world) limit :
  unauthorized_between w (snd (get_top_populated_countries self limit w)) = true ->
  un_api_key (snd (get_top_populated_countries self limit w)) = Some None.
Proof.
  destruct (get_api_key_cases w) as [(k & w' & E & C & S & _)|E].
  - rewrite (get_top_populated_countries_resolved w w' k limit E C),
      (unauthorized_between_same w w' _ S).
    apply (get_top_populated_countries_401_cached w' k limit C).
  - unfold get_top_populated_countries, try_except,
      get_top_populated_countries_body, bind.
    rewrite E. cbn. rewrite (unauthorized_between_none w w eq_refl). discriminate.
Qed.

Lemma world_after_401 (op : operation) (w : world) :
  unauthorized_between w (world_after self op w) = true ->
  un_api_key (world_after self op w) = Some None.
Proof.
  destruct op as [| |name locations|limit]; cbn [world_after].
  - apply get_indicators_401.
  - apply get_available_targets_401.
  - apply get_data_for_indicator_401.
  - apply get_top_populated_countries_401.
Qed.

Lemma get_api_key_uncached (w : world) :
  un_api_key w = Some None \/ un_api_key w = None ->
  fst (_get_api_key self w) = Ok (environment_key self).
Proof.
  unfold _get_api_key, session_key, environment_key. run.
  intros [E|E]; rewrite E; destruct (truthy_key (api_key self)); reflexivity.
Qed.

(** C2: whichever operation is called (list indicators, list targets,
    fetch a time series, discover locations) and whatever the session
    held before, if a response received during the call has status 401
    then the session credential is [None] when the call is over. *)
Theorem unauthorized_clears_credential (op : operation) (w : world) :
  unauthorized_between w (world_after self op w) = true ->
  un_api_key (world_after self op w) = Some None.
Proof. exact (world_after_401 op w). Qed.

(** C1, as the code has it: after a call in which a 401 cleared the
    session credential, the next [_get_api_key] yields the key read
    from the environment at construction when that key is non-empty,
    and [None] otherwise; so it yields a given credential again only
    when that credential is the environment key. *)
Theorem resolution_after_unauthorized (op : operation) (w : world) :
  unauthorized_between w (world_after self op w) = true ->
  fst (_get_api_key self (world_after self op w)) = Ok (environment_key self)
  /\ forall k, api_key self <> Some k ->
              fst (_get_api_key self (world_after self op w)) <> Ok (Some k).
Proof.
  intros U. pose proof (world_after_401 op w U) as E.
  rewrite (get_api_key_uncached _ (or_introl E)). split; [reflexivity|].
  intros k D. unfold environment_key.
  destruct (truthy_key (api_key self)); congruence.
Qed.

(** *** Location discovery degrades to the World identifier *)

Lemma catalog_of_no_data (body : pyobj) :
  has_empty_data body = true -> catalog_of body = Ok [].
Proof.
  destruct body as [| | | | | |d]; try discriminate.
  unfold has_empty_data, catalog_of. cbn.
  destruct (dict_get "data" d) as [[| | | | |[|]|]|]; try discriminate.
  reflexivity.
Qed.

Lemma locations_of_no_data (body : pyobj) (limit : Z) :
  has_empty_data body = true -> locations_of body limit = Ok [VInt 900].
Proof.
  destruct body as [| | | | | |d]; try discriminate.
  unfold has_empty_data, locations_of. cbn.
  destruct (dict_get "data" d) as [[| | | | |[|]|]|]; try discriminate.
  reflexivity.
Qed.

Lemma get_top_populated_countries_total (limit : Z) (w : world) :
  exists ids, fst (get_top_populated_countries self limit w) = Ok ids.
Proof.
  unfold get_top_populated_countries, try_except, ret.
  destruct (get_top_populated_countries_body self limit w) as [[ids|e] w'];
    eexists; reflexivity.
Qed.

Lemma get_top_populated_countries_no_key (limit : Z) (w : world) :
  fst (_get_api_key self w) = Ok None ->
  fst (get_top_populated_countries self limit w) = Ok [VInt 900].
Proof.
  intros E. unfold get_top_populated_countries, try_except,
    get_top_populated_countries_body, bind.
  destruct (_get_api_key self w) as [r w']. cbn in E. subst r. reflexivity.
Qed.

Lemma get_top_populated_countries_degraded_cached (w : world) (k : string) limit :
  cached k w ->
  degraded_between w (snd (get_top_populated_countries self limit w)) = true ->
  fst (get_top_populated_countries self limit w) = Ok [VInt 900].
Proof.
  intros C.
  destruct (get_top_populated_countries self limit w) as [res w'] eqn:R.
  cbn [fst snd]. revert R.
  unfold get_top_populated_countries, try_except, get_top_populated_countries_body.
  unfold bind at 1. rewrite (get_api_key_cached w k C).
  pose proof C as [_ T]. cbn [truthy_key]. rewrite T. cbn [negb].
  unfold bind at 1. rewrite (get_indicator_names_cached w k C). cbn zeta.
  destruct (ex_outcome (indicators_exchange self k w)) as [m|r] eqn:X;
    [|destruct (status_code r =? 200)%Z eqn:S2;
      [destruct (json r) as [m|v] eqn:J; [|destruct (catalog_of v) as [cat|e] eqn:Cat]
      |destruct (status_code r =? 401)%Z eqn:S4]];
    run; repeat split_match;
    (let R := fresh in intros R; injection R as <- <-);
    try reflexivity;
    unfold degraded_between, new_exchanges; cbn;
    rewrite <- ?app_assoc, ?skipn_length_self, ?skipn_length_app; cbn;
    unfold degraded; cbn; rewrite X; cbn; rewrite ?S2, ?J;
    repeat match goal with
           | E : ?a = _ |- context [match ?a with _ => _ end] => rewrite E; cbn
           end;
    rewrite ?orb_false_r; intros D;
    repeat match goal with
           | H : _ || _ = true |- _ => apply orb_true_iff in H; destruct H
           end;
    repeat match goal with
           | H : has_empty_data ?b = true, K : catalog_of ?b = _ |- _ =>
               rewrite (catalog_of_no_data b H) in K; injection K as <-; cbn in *
           | H : has_empty_data ?b = true, L : locations_of ?b _ = _ |- _ =>
               rewrite (locations_of_no_data b _ H) in L
           end;
    congruence.
Qed.

Lemma degraded_between_same (w w' after : world) :
  exchanges w' = exchanges w ->
  degraded_between w after = degraded_between w' after.
Proof.
  unfold degraded_between. intros E. rewrite (new_exchanges_same w w' after E).
  reflexivity.
Qed.

Lemma get_top_populated_countries_degraded (limit : Z) (w : world) :
  degraded_between w (snd (get_top_populated_countries self limit w)) = true ->
  fst (get_top_populated_countries self limit w) = Ok [VInt 900].
Proof.
  destruct (get_api_key_cases w) as [(k & w' & E & C & S & _)|E].
  - rewrite (get_top_populated_countries_resolved w w' k limit E C),
      (degraded_between_same w w' _ S).
    apply (get_top_populated_countries_degraded_cached w' k limit C).
  - intros _. apply get_top_populated_countries_no_key. rewrite E. reflexivity.
Qed.

(** C3: location discovery never raises, and it returns exactly [[900]]
    when the credential is missing, when a response of the call has
    status 401 or any other status than 200, when a request fails at
    the network level, or when a 200 response carries an empty data
    array. *)
Theorem location_discovery_never_raises (limit : Z) (w : world) :
  (exists ids, fst (get_top_populated_countries self limit w) = Ok ids)
  /\ (fst (_get_api_key self w) = Ok None
      \/ degraded_between w (snd (get_top_populated_countries self limit w)) = true ->
      fst (get_top_populated_countries self limit w) = Ok [VInt 900]).
Proof.
  split.
  - apply get_top_populated_countries_total.
  - intros [E|D].
    + apply get_top_populated_countries_no_key, E.
    + apply get_top_populated_countries_degraded, D.
Qed.

(** *** Errors of the time-series fetch *)

Lemma catalog_response_same (w w' after : world) :
  exchanges w' = exchanges w ->
  catalog_response w after = catalog_response w' after.
Proof.
  unfold catalog_response. intros E. rewrite (new_exchanges_same w w' after E).
  reflexivity.
Qed.

Lemma data_response_same (w w' after : world) :
  exchanges w' = exchanges w ->
  data_response w after = data_response w' after.
Proof.
  unfold data_response. intros E. rewrite (new_exchanges_same w w' after E).
  reflexivity.
Qed.

Lemma response_none (w w' : world) :
  exchanges w' = exchanges w ->
  catalog_response w w' = None /\ data_response w w' = None.
Proof.
  unfold catalog_response, data_response, new_exchanges. intros ->.
  rewrite skipn_length_self. split; reflexivity.
Qed.

Ltac response_cases :=
  (let R := fresh in intros R; injection R as <- <-);
  unfold catalog_response, data_response, new_exchanges, cleared; cbn;
  rewrite <- ?app_assoc, ?skipn_length_self, ?skipn_length_app; cbn;
  repeat match goal with
         | E : ?a = _ |- context [match ?a with _ => _ end] => rewrite E; cbn
         end;
  try discriminate;
  (let R := fresh in intros R; injection R as <-);
  intros; status_facts; subst; try reflexivity; try congruence; try lia.

Lemma fetch_catalog_401_cached (w : world) (k : string) name locations r :
  cached k w ->
  catalog_response w (snd (get_data_for_indicator self name locations w)) = Some r ->
  status_code r = 401%Z ->
  fst (get_data_for_indicator self name locations w)
  = Raise (Exception (wrapped name (not_found_message name))).
Proof.
  intros C.
  destruct (get_data_for_indicator self name locations w) as [res w'] eqn:R.
  cbn [fst snd]. revert R.
  unfold get_data_for_indicator, try_except, get_data_for_indicator_body.
  unfold bind at 1. rewrite (get_api_key_cached w k C).
  pose proof C as [_ T]. cbn [truthy_key]. rewrite T. cbn [negb].
  unfold bind at 1. rewrite (get_indicator_names_cached w k C). cbn zeta.
  destruct (ex_outcome (indicators_exchange self k w)) as [m|r1] eqn:X;
    [|destruct (status_code r1 =? 200)%Z eqn:S2;
      [destruct (json r1) as [m|v] eqn:J; [|destruct (catalog_of v) as [cat|e] eqn:Cat]
      |destruct (status_code r1 =? 401)%Z eqn:S4]];
    run; repeat split_match; response_cases.
Qed.

Lemma fetch_data_status_cached (w : world) (k : string) name locations r :
  cached k w ->
  data_response w (snd (get_data_for_indicator self name locations w)) = Some r ->
  status_code r <> 200%Z -> status_code r <> 401%Z ->
  fst (get_data_for_indicator self name locations w)
  = Raise (Exception (wrapped name (str_int (status_code r)))).
Proof.
  intros C.
  destruct (get_data_for_indicator self name locations w) as [res w'] eqn:R.
  cbn [fst snd]. revert R.
  unfold get_data_for_indicator, try_except, get_data_for_indicator_body.
  unfold bind at 1. rewrite (get_api_key_cached w k C).
  pose proof C as [_ T]. cbn [truthy_key]. rewrite T. cbn [negb].
  unfold bind at 1. rewrite (get_indicator_names_cached w k C). cbn zeta.
  destruct (ex_outcome (indicators_exchange self k w)) as [m|r1] eqn:X;
    [|destruct (status_code r1 =? 200)%Z eqn:S2;
      [destruct (json r1) as [m|v] eqn:J; [|destruct (catalog_of v) as [cat|e] eqn:Cat]
      |destruct (status_code r1 =? 401)%Z eqn:S4]];
    run; repeat split_match; response_cases.
Qed.

Lemma fetch_without_key (w : world) name locations :
  _get_api_key self w = (Ok None, w) ->
  get_data_for_indicator self name locations w = (Ok [], w).
Proof.
  intros E. unfold get_data_for_indicator, try_except, get_data_for_indicator_body, bind.
  rewrite E. reflexivity.
Qed.

(** C9: when the catalog request of [get_data_for_indicator] is answered
    with 401, the call does not return an empty table: the catalog is
    empty, the name is not found, and the wrapped not-found error is
    raised. *)
Theorem fetch_raises_on_catalog_401 (w : world) name locations r :
  catalog_response w (snd (get_data_for_indicator self name locations w)) = Some r ->
  status_code r = 401%Z ->
  fst (get_data_for_indicator self name locations w)
  = Raise (Exception ("Error fetching data for " ++ name
                        ++ ": Indicator name '" ++ name ++ "' not found")).
Proof.
  destruct (get_api_key_cases w) as [(k & w' & E & C & S & _)|E].
  - rewrite (get_data_for_indicator_resolved w w' k name locations E C),
      (catalog_response_same w w' _ S).
    apply (fetch_catalog_401_cached w' k name locations r C).
  - rewrite (fetch_without_key w name locations E). cbn [snd].
    rewrite (proj1 (response_none w w eq_refl)). discriminate.
Qed.

Lemma fetch_data_status (w : world) name locations r :
  data_response w (snd (get_data_for_indicator self name locations w)) = Some r ->
  status_code r <> 200%Z -> status_code r <> 401%Z ->
  fst (get_data_for_indicator self name locations w)
  = Raise (Exception (wrapped name (str_int (status_code r)))).
Proof.
  destruct (get_api_key_cases w) as [(k & w' & E & C & S & _)|E].
  - rewrite (get_data_for_indicator_resolved w w' k name locations E C),
      (data_response_same w w' _ S).
    apply (fetch_data_status_cached w' k name locations r C).
  - rewrite (fetch_without_key w name locations E). cbn [snd].
    rewrite (proj2 (response_none w w eq_refl)). discriminate.
Qed.

Lemma fetch_errors_wrapped (w : world) name locations e :
  fst (get_data_for_indicator self name locations w) = Raise e ->
  exists cause,
    fst (get_data_for_indicator_body self name locations w) = Raise cause
    /\ e = Exception (wrapped name (str_exn cause)).
Proof.
  unfold get_data_for_indicator, try_except, raise.
  destruct (get_data_for_indicator_body self name locations w) as [[df|cause] w'];
    cbn; intros E; [discriminate|].
  exists cause. split; congruence.
Qed.

(** C8: when the data request of a time-series fetch is answered with a
    status that is neither 200 nor 401, the call raises an error whose
    message holds the indicator name and the status code; and whatever
    exception leaves the call is the exception raised inside it,
    wrapped in a message that starts with the indicator name. *)
Theorem fetch_errors_name_the_indicator (w : world) name locations :
  (forall r,
      data_response w (snd (get_data_for_indicator self name locations w)) = Some r ->
      status_code r <> 200%Z -> status_code r <> 401%Z ->
      exists msg,
        fst (get_data_for_indicator self name locations w) = Raise (Exception msg)
        /\ msg = "Error fetching data for " ++ name ++ ": " ++ str_int (status_code r)
        /\ contains_str name msg = true
        /\ contains_str (str_int (status_code r)) msg = true)
  /\ (forall e,
        fst (get_data_for_indicator self name locations w) = Raise e ->
        exists cause,
          fst (get_data_for_indicator_body self name locations w) = Raise cause
          /\ e = Exception ("Error fetching data for " ++ name ++ ": " ++ str_exn cause)
          /\ contains_str name (str_exn e) = true).
Proof.
  split.
  - intros r D S2 S4. eexists. split; [apply (fetch_data_status w name locations r D S2 S4)|].
    split; [reflexivity|]. split.
    + apply (contains_str_app name "Error fetching data for ").
    + unfold wrapped.
      rewrite <- (string_app_assoc name ": " (str_int (status_code r))).
      apply contains_str_last.
  - intros e E. destruct (fetch_errors_wrapped w name locations e E) as (cause & B & ->).
    exists cause. repeat split; auto.
    apply (contains_str_app name "Error fetching data for ").
Qed.

(** C5: when the credential resolves and the name is not a key of the
    catalog the call has just fetched, [get_data_for_indicator] raises
    an error whose message holds the name; the call ends in the world
    the catalog fetch left, so no data of any indicator is requested or
    returned. *)
Theorem fetch_unknown_indicator_raises (w : world) name locations k catalog :
  fst (_get_api_key self w) = Ok (Some k) ->
  fst (get_indicator_names self (snd (_get_api_key self w))) = Ok catalog ->
  pydict_get (VStr name) catalog = None ->
  exists msg,
    get_data_for_indicator self name locations w
    = (Raise (Exception msg), snd (get_indicator_names self (snd (_get_api_key self w))))
    /\ msg = "Error fetching data for " ++ name
               ++ ": Indicator name '" ++ name ++ "' not found"
    /\ contains_str name msg = true.
Proof.
  intros K N L. eexists. split; [|split; [reflexivity|]].
  - destruct (get_api_key_cases w) as [(k' & w' & E & C & _)|E];
      rewrite E in *; cbn [fst snd] in *; [|discriminate].
    injection K as ->.
    unfold get_data_for_indicator, try_except, get_data_for_indicator_body, bind.
    rewrite E. destruct C as [_ T]. cbn [truthy_key]. rewrite T. cbn [negb].
    destruct (get_indicator_names self w') as [res w2]. cbn [fst snd] in *.
    subst res. rewrite L. reflexivity.
  - apply (contains_str_app name "Error fetching data for ").
Qed.

(** *** Records *)

Lemma nested_name_absent (field : string) (d : list (string * pyobj)) :
  name_absent field d -> nested_name (VDict d) field = Ok (VStr "Unknown").
Proof.
  unfold nested_name, name_absent. cbn.
  intros [E|(nested & E & N)]; rewrite E; cbn; [|rewrite N]; reflexivity.
Qed.

(** C7: for a response item whose [location] (or [variant]) key is
    missing or holds a dict without a [name] key, the expression that
    computes that field does not raise and yields ["Unknown"], and so
    does that field of the record built from the item. *)
Theorem missing_names_default_to_unknown (d : list (string * pyobj)) :
  (name_absent "location" d ->
   nested_name (VDict d) "location" = Ok (VStr "Unknown")
   /\ forall r, make_record (VDict d) = Ok r -> location r = VStr "Unknown")
  /\ (name_absent "variant" d ->
      nested_name (VDict d) "variant" = Ok (VStr "Unknown")
      /\ forall r, make_record (VDict d) = Ok r -> variant r = VStr "Unknown")
  /\ (name_absent "location" d -> name_absent "variant" d ->
      exists r, make_record (VDict d) = Ok r
                /\ location r = VStr "Unknown" /\ variant r = VStr "Unknown").
Proof.
  split; [|split].
  - intros A. pose proof (nested_name_absent _ _ A) as E. split; [exact E|].
    intros r. unfold make_record. rewrite E. cbn.
    destruct (dict_get "timeLabel" d), (dict_get "value" d); cbn;
      destruct (nested_name (VDict d) "variant"); cbn; intros [= <-]; reflexivity.
  - intros A. pose proof (nested_name_absent _ _ A) as E. split; [exact E|].
    intros r. unfold make_record. rewrite E. cbn.
    destruct (dict_get "timeLabel" d), (dict_get "value" d); cbn;
      destruct (nested_name (VDict d) "location"); cbn; intros [= <-]; reflexivity.
  - intros A B. unfold make_record.
    rewrite (nested_name_absent _ _ A), (nested_name_absent _ _ B). cbn.
    destruct (dict_get "timeLabel" d), (dict_get "value" d); cbn;
      eexists; repeat split.
Qed.

(** *** The catalog *)

Lemma Qeq_bool_congr (x y z : Q) :
  Qeq_bool x y = true -> Qeq_bool x z = Qeq_bool y z.
Proof.
  intros E. apply Qeq_bool_iff in E.
  destruct (Qeq_bool x z) eqn:A, (Qeq_bool y z) eqn:B; try reflexivity.
  - apply Qeq_bool_iff in A. apply Qeq_bool_neq in B. exfalso. apply B.
    rewrite <- E. exact A.
  - apply Qeq_bool_iff in B. apply Qeq_bool_neq in A. exfalso. apply A.
    rewrite E. exact B.
Qed.

Lemma py_eq_sym (a b : pyobj) : py_eq a b = py_eq b a.
Proof.
  destruct a, b; cbn; try reflexivity; try apply Qeq_bool_comm.
  apply String.eqb_sym.
Qed.

Lemma py_eq_refl (a : pyobj) : hashable a = true -> py_eq a a = true.
Proof.
  destruct a; cbn; try discriminate; intros _; try reflexivity;
    try apply Qeq_bool_refl.
  apply String.eqb_refl.
Qed.

Lemma py_eq_congr (a b c : pyobj) : py_eq a b = true -> py_eq a c = py_eq b c.
Proof.
  destruct a, b; cbn; try discriminate; intros E;
    try (apply String.eqb_eq in E; subst; reflexivity);
    destruct c; cbn; try reflexivity; apply Qeq_bool_congr; exact E.
Qed.

Lemma pydict_get_set (q n i : pyobj) (d : pydict) :
  pydict_get q (pydict_set n i d) = if py_eq n q then Some i else pydict_get q d.
Proof.
  induction d as [|[k' v'] rest IH]; cbn; [reflexivity|].
  destruct (py_eq k' n) eqn:K; cbn.
  - rewrite (py_eq_congr k' n q K). destruct (py_eq n q); reflexivity.
  - rewrite IH. destruct (py_eq k' q) eqn:Q; [|reflexivity].
    destruct (py_eq n q) eqn:N; [|reflexivity].
    rewrite (py_eq_congr k' q n Q), py_eq_sym, N in K. discriminate.
Qed.

Lemma indicator_dict_last (items : list pyobj) (acc : pydict) :
  Forall indicator_item items ->
  exists catalog,
    indicator_dict items acc = Ok catalog
    /\ forall q, pydict_get q catalog
                 = match last_id q items with
                   | Some i => Some i
                   | None => pydict_get q acc
                   end.
Proof.
  intros W. revert acc. induction W as [|item rest (n & i & E & Hn) W IH]; intros acc.
  - exists acc. split; reflexivity.
  - destruct item as [| | | | | |d]; try discriminate. cbn in E.
    destruct (dict_get "name" d) as [n'|] eqn:Dn; [|discriminate].
    destruct (dict_get "id" d) as [i'|] eqn:Di; [|discriminate].
    injection E as -> ->.
    destruct (IH (pydict_set n i acc)) as (catalog & R & L).
    exists catalog. split.
    + cbn. rewrite Dn, Di. cbn. rewrite Hn. exact R.
    + intros q. rewrite L. cbn. rewrite Dn, Di.
      destruct (last_id q rest); [reflexivity|]. rewrite pydict_get_set.
      destruct (py_eq n q); reflexivity.
Qed.

Lemma last_id_app (q : pyobj) (before after : list pyobj) :
  last_id q (before ++ after)
  = match last_id q after with
    | Some i => Some i
    | None => last_id q before
    end.
Proof.
  induction before as [|item rest IH]; cbn.
  - destruct (last_id q after); reflexivity.
  - rewrite IH. destruct (last_id q after); reflexivity.
Qed.

Lemma last_id_none (q : pyobj) (items : list pyobj) :
  (forall item n i, In item items -> item_name_id item = Some (n, i) ->
                    py_eq n q = false) ->
  last_id q items = None.
Proof.
  induction items as [|item rest IH]; intros H; cbn; [reflexivity|].
  rewrite IH by (intros; eapply H; eauto; now right).
  destruct (item_name_id item) as [[n i]|] eqn:E; [|reflexivity].
  rewrite (H item n i (or_introl eq_refl) E). reflexivity.
Qed.

Lemma get_indicator_names_resolved (w w' : world) (k : string) :
  _check_api_key_input self w = (Ok (Some k), w') -> cached k w' ->
  get_indicator_names self w = get_indicator_names self w'.
Proof.
  intros E C. unfold get_indicator_names, bind.
  rewrite (get_indicators_resolved w w' k E C). reflexivity.
Qed.

Lemma get_indicator_names_ok (w : world) r body :
  catalog_response w (snd (get_indicator_names self w)) = Some r ->
  status_code r = 200%Z -> json r = inr body ->
  fst (get_indicator_names self w) = catalog_of body.
Proof.
  destruct (check_api_key_input_cases w) as [(k & w' & E & C & S)|(w' & E & S & _)].
  - rewrite (get_indicator_names_resolved w w' k E C), (catalog_response_same w w' _ S).
    rewrite (get_indicator_names_cached w' k C). cbn zeta.
    destruct (ex_outcome (indicators_exchange self k w')) as [m|r1] eqn:X;
      [|destruct (status_code r1 =? 200)%Z eqn:S2;
        [|destruct (status_code r1 =? 401)%Z eqn:S4]];
      unfold catalog_response, new_exchanges, cleared; cbn;
      rewrite skipn_length_app; cbn; cbn in X; rewrite X; try discriminate;
      intros [= <-] S200 J; status_facts; try congruence.
    rewrite J. reflexivity.
  - unfold get_indicator_names, get_indicators, bind. rewrite E. cbn.
    rewrite (proj1 (response_none w w' S)). discriminate.
Qed.

(** C10: when several items of the indicators response carry the same
    name, [get_indicator_names] does not fail, and a lookup by that name
    in the catalog yields the identifier of the last of them. *)
Theorem duplicate_names_keep_last
    (w : world) r d (before after : list pyobj) (item name id : pyobj) :
  catalog_response w (snd (get_indicator_names self w)) = Some r ->
  status_code r = 200%Z ->
  json r = inr (VDict d) ->
  dict_get "data" d = Some (VList (before ++ item :: after)) ->
  Forall indicator_item (before ++ item :: after) ->
  item_name_id item = Some (name, id) ->
  (forall later n i, In later after -> item_name_id later = Some (n, i) ->
                     py_eq n name = false) ->
  exists catalog,
    fst (get_indicator_names self w) = Ok catalog
    /\ pydict_get name catalog = Some id.
Proof.
  intros R S J D W E Last.
  rewrite (get_indicator_names_ok w r (VDict d) R S J).
  destruct (indicator_dict_last (before ++ item :: after) [] W) as (catalog & I & L).
  exists catalog. split.
  - unfold catalog_of. cbn. rewrite D. cbn. exact I.
  - rewrite L, last_id_app. cbn. rewrite (last_id_none name after Last), E.
    rewrite py_eq_refl; [reflexivity|].
    apply Forall_elt in W. destruct W as (n & i & E' & Hn). congruence.
Qed.

(** *** Successful calls *)

Ltac same_body :=
  repeat match goal with
         | A : ?x = inr ?a, B : ?x = inr ?b |- _ =>
             rewrite A in B; injection B as <-
         | A : ?x = inl _, B : ?x = inr _ |- _ => rewrite A in B; discriminate
         | E : ?a = _ |- context [match ?a with _ => _ end] => rewrite E; cbn
         end.

Lemma fetch_success_cached (w : world) (k : string) name locations r body :
  cached k w ->
  data_response w (snd (get_data_for_indicator self name locations w)) = Some r ->
  status_code r = 200%Z -> json r = inr body ->
  fst (get_data_for_indicator self name locations w)
  = match frame_of body with
    | Ok df => Ok df
    | Raise e => Raise (Exception (wrapped name (str_exn e)))
    end.
Proof.
  intros C.
  destruct (get_data_for_indicator self name locations w) as [res w'] eqn:R.
  cbn [fst snd]. revert R.
  unfold get_data_for_indicator, try_except, get_data_for_indicator_body.
  unfold bind at 1. rewrite (get_api_key_cached w k C).
  pose proof C as [_ T]. cbn [truthy_key]. rewrite T. cbn [negb].
  unfold bind at 1. rewrite (get_indicator_names_cached w k C). cbn zeta.
  destruct (ex_outcome (indicators_exchange self k w)) as [m|r1] eqn:X;
    [|destruct (status_code r1 =? 200)%Z eqn:S2;
      [destruct (json r1) as [m|v] eqn:J; [|destruct (catalog_of v) as [cat|e] eqn:Cat]
      |destruct (status_code r1 =? 401)%Z eqn:S4]];
    run; repeat split_match; response_cases; same_body; reflexivity.
Qed.

Lemma fetch_success (w : world) name locations r body :
  data_response w (snd (get_data_for_indicator self name locations w)) = Some r ->
  status_code r = 200%Z -> json r = inr body ->
  fst (get_data_for_indicator self name locations w)
  = match frame_of body with
    | Ok df => Ok df
    | Raise e => Raise (Exception (wrapped name (str_exn e)))
    end.
Proof.
  destruct (get_api_key_cases w) as [(k & w' & E & C & S & _)|E].
  - rewrite (get_data_for_indicator_resolved w w' k name locations E C),
      (data_response_same w w' _ S).
    apply (fetch_success_cached w' k name locations r body C).
  - rewrite (fetch_without_key w name locations E). cbn [snd].
    rewrite (proj2 (response_none w w eq_refl)). discriminate.
Qed.

Lemma discovery_success_cached (w : world) (k : string) limit r body :
  cached k w ->
  data_response w (snd (get_top_populated_countries self limit w)) = Some r ->
  status_code r = 200%Z -> json r = inr body ->
  fst (get_top_populated_countries self limit w)
  = match locations_of body limit with
    | Ok ids => Ok ids
    | Raise _ => Ok [VInt 900]
    end.
Proof.
  intros C.
  destruct (get_top_populated_countries self limit w) as [res w'] eqn:R.
  cbn [fst snd]. revert R.
  unfold get_top_populated_countries, try_except, get_top_populated_countries_body.
  unfold bind at 1. rewrite (get_api_key_cached w k C).
  pose proof C as [_ T]. cbn [truthy_key]. rewrite T. cbn [negb].
  unfold bind at 1. rewrite (get_indicator_names_cached w k C). cbn zeta.
  destruct (ex_outcome (indicators_exchange self k w)) as [m|r1] eqn:X;
    [|destruct (status_code r1 =? 200)%Z eqn:S2;
      [destruct (json r1) as [m|v] eqn:J; [|destruct (catalog_of v) as [cat|e] eqn:Cat]
      |destruct (status_code r1 =? 401)%Z eqn:S4]];
    run; repeat split_match; response_cases; same_body; reflexivity.
Qed.

Lemma discovery_success (w : world) limit r body :
  data_response w (snd (get_top_populated_countries self limit w)) = Some r ->
  status_code r = 200%Z -> json r = inr body ->
  fst (get_top_populated_countries self limit w)
  = match locations_of body limit with
    | Ok ids => Ok ids
    | Raise _ => Ok [VInt 900]
    end.
Proof.
  destruct (get_api_key_cases w) as [(k & w' & E & C & S & _)|E].
  - rewrite (get_top_populated_countries_resolved w w' k limit E C),
      (data_response_same w w' _ S).
    apply (discovery_success_cached w' k limit r body C).
  - unfold get_top_populated_countries, try_except,
      get_top_populated_countries_body, bind.
    rewrite E. cbn. rewrite (proj2 (response_none w w eq_refl)). discriminate.
Qed.

(** *** The table of a successful fetch *)

Lemma make_records_rows (items : list pyobj) (records : list record) :
  make_records items = Ok records ->
  Forall2 (fun item row => make_record item = Ok row) items records.
Proof.
  revert records. induction items as [|item rest IH]; cbn; intros records E.
  - injection E as <-. constructor.
  - destruct (make_record item) as [row|e] eqn:R; [|discriminate]. cbn in E.
    destruct (make_records rest) as [rows|e]; [|discriminate]. cbn in E.
    injection E as <-. constructor; auto.
Qed.

Lemma make_record_fields (item : pyobj) (row : record) :
  make_record item = Ok row ->
  py_get item "timeLabel" VNone = Ok (year row)
  /\ py_get item "value" VNone = Ok (value row)
  /\ nested_name item "location" = Ok (location row)
  /\ nested_name item "variant" = Ok (variant row).
Proof.
  unfold make_record.
  destruct (py_get item "timeLabel" VNone); [|discriminate].
  destruct (py_get item "value" VNone); [|discriminate].
  destruct (nested_name item "location"); [|discriminate].
  destruct (nested_name item "variant"); [|discriminate].
  cbn. intros [= <-]. cbn. auto.
Qed.

Lemma assign_year_rows (df : DataFrame) (col : list pyobj) :
  List.length col = List.length df ->
  map year (assign_year df col) = col
  /\ Forall2 (fun old new => value new = value old /\ location new = location old
                              /\ variant new = variant old) df (assign_year df col).
Proof.
  revert col. induction df as [|r rs IH]; intros [|y ys] L; try discriminate.
  - split; [reflexivity|constructor].
  - cbn in L. injection L as L. destruct (IH ys L) as [Y F]. cbn.
    split; [now rewrite Y|]. constructor; cbn; auto.
Qed.

Lemma to_numeric_ignore_length (col : list pyobj) :
  numeric_keeps_length ->
  List.length (to_numeric_ignore col) = List.length col.
Proof.
  intros K. unfold to_numeric_ignore.
  destruct (pd_to_numeric col) as [c|] eqn:E; [apply (K col c E)|reflexivity].
Qed.

Lemma Forall2_compose {A B C} (P : A -> B -> Prop) (Q : B -> C -> Prop)
    (l : list A) (m : list B) (n : list C) :
  Forall2 P l m -> Forall2 Q m n -> Forall2 (fun a c => exists b, P a b /\ Q b c) l n.
Proof.
  intros F. revert n. induction F; intros n G; inversion G; subst; constructor; eauto.
Qed.

(** C6, as the code has it: for a 200 response to the data request
    whose body holds under [data] a non-empty array of items that all
    map to a record, the table has one row per item, in the order of
    the response; the value, location and variant of a row are those
    mapped from its item; and the year column is what
    [pd.to_numeric(errors='ignore')] makes of the column of the items'
    time labels: the labels themselves only when the conversion
    fails. *)
Theorem fetch_returns_one_row_per_item
    (w : world) name locations r d (items : list pyobj) (records : list record) :
  numeric_keeps_length ->
  data_response w (snd (get_data_for_indicator self name locations w)) = Some r ->
  status_code r = 200%Z ->
  json r = inr (VDict d) ->
  dict_get "data" d = Some (VList items) ->
  items <> [] ->
  make_records items = Ok records ->
  exists df,
    fst (get_data_for_indicator self name locations w) = Ok df
    /\ List.length df = List.length items
    /\ Forall2 (fun item row =>
                  py_get item "value" VNone = Ok (value row)
                  /\ nested_name item "location" = Ok (location row)
                  /\ nested_name item "variant" = Ok (variant row)) items df
    /\ Forall2 (fun item label => py_get item "timeLabel" VNone = Ok label)
               items (map year records)
    /\ map year df = to_numeric_ignore (map year records)
    /\ (pd_to_numeric (map year records) = None -> map year df = map year records).
Proof.
  intros K D S J Data NE R.
  rewrite (fetch_success w name locations r (VDict d) D S J).
  unfold frame_of. cbn. rewrite Data. cbn. rewrite R. cbn.
  pose proof (make_records_rows items records R) as Rows.
  assert (L : List.length records = List.length items)
    by (symmetry; apply (Forall2_length Rows)).
  destruct records as [|row rows];
    [destruct items; [congruence|discriminate]|].
  cbn [column_year rbind].
  set (df := row :: rows) in *.
  assert (LC : List.length (to_numeric_ignore (map year df)) = List.length df)
    by (rewrite (to_numeric_ignore_length _ K); apply length_map).
  destruct (assign_year_rows df _ LC) as [Y F].
  exists (assign_year df (to_numeric_ignore (map year df))).
  split; [reflexivity|]. split; [|split; [|split; [|split]]].
  - rewrite <- L. symmetry. apply (Forall2_length F).
  - pose proof (Forall2_compose _ _ _ _ _ Rows F) as G.
    eapply Forall2_impl; [|exact G]. cbn.
    intros item new (old & M & V & Lo & Va).
    apply make_record_fields in M. destruct M as (_ & Mv & Ml & Mvar).
    rewrite V, Lo, Va. auto.
  - clear - Rows. induction Rows; cbn; constructor; auto.
    apply make_record_fields in H. apply H.
  - exact Y.
  - intros N. rewrite Y. unfold to_numeric_ignore. rewrite N. reflexivity.
Qed.

(** *** The identifiers of a successful discovery *)

Lemma distinct_snoc (s : list pyobj) (x : pyobj) :
  distinct s -> (forall y, In y s -> py_eq y x = false) -> distinct (s ++ [x]).
Proof.
  induction 1 as [|a l Ha Hl IH]; intros Hx; cbn.
  - constructor; [intros y []|constructor].
  - constructor.
    + intros y Hy. apply in_app_or in Hy. destruct Hy as [Hy|[<-|[]]].
      * apply Ha, Hy.
      * apply Hx. now left.
    + apply IH. intros y Hy. apply Hx. now right.
Qed.

Lemma distinct_set_add (x : pyobj) (s : list pyobj) :
  distinct s -> distinct (set_add x s).
Proof.
  intros D. unfold set_add.
  destruct (existsb (fun y => py_eq y x) s) eqn:E; [exact D|].
  apply distinct_snoc; [exact D|]. intros y Hy.
  destruct (py_eq y x) eqn:P; [|reflexivity].
  assert (existsb (fun y => py_eq y x) s = true)
    by (apply existsb_exists; exists y; auto).
  congruence.
Qed.

Lemma distinct_permutation (l l' : list pyobj) :
  Permutation l l' -> distinct l -> distinct l'.
Proof.
  induction 1 as [|x l l' P IH|x y l|l l' l'' P1 IH1 P2 IH2]; intros D.
  - exact D.
  - inversion D as [|? ? Hx Hl]; subst. constructor; [|auto].
    intros z Hz. apply Hx. apply (Permutation_in z (Permutation_sym P) Hz).
  - inversion D as [|? ? Hy Hl]; subst. inversion Hl as [|? ? Hx Hl']; subst.
    constructor; [|constructor; [|exact Hl']].
    + intros z [<-|Hz]; [rewrite py_eq_sym; apply Hy; now left|apply Hx, Hz].
    + intros z Hz. apply Hy. now right.
  - auto.
Qed.

Lemma firstn_In (n : nat) (l : list pyobj) (x : pyobj) :
  In x (firstn n l) -> In x l.
Proof.
  revert l. induction n as [|n IH]; intros [|a l]; cbn; try tauto.
  intros [E|H]; [now left|right; apply IH, H].
Qed.

Lemma distinct_firstn (n : nat) (l : list pyobj) :
  distinct l -> distinct (firstn n l).
Proof.
  revert l. induction n as [|n IH]; intros l D; [constructor|].
  destruct D as [|x l Hx Hl]; cbn; constructor; [|apply IH, Hl].
  intros y Hy. apply Hx, (firstn_In n l y Hy).
Qed.

Lemma slice_to_firstn {A} (l : list A) (limit : Z) :
  exists n, slice_to l limit = firstn n l
            /\ ((0 <= limit)%Z -> n = Z.to_nat limit).
Proof.
  unfold slice_to. destruct (0 <=? limit)%Z eqn:E.
  - eexists. split; [reflexivity|auto].
  - eexists. split; [reflexivity|]. apply Z.leb_gt in E. lia.
Qed.

Lemma location_ids_sound (items : list pyobj) (acc ids : list pyobj) :
  location_ids items acc = Ok ids ->
  (distinct acc -> distinct ids)
  /\ forall id, In id ids ->
                In id acc \/ exists item, In item items /\ item_id item = Ok id.
Proof.
  revert acc. induction items as [|item rest IH]; cbn; intros acc E.
  - injection E as <-. split; auto.
  - destruct (py_contains "location" item) as [[|]|e] eqn:C1; cbn in E;
      try discriminate.
    + destruct (py_getitem item "location") as [loc|e] eqn:G1; cbn in E;
        [|discriminate].
      destruct (py_contains "id" loc) as [[|]|e] eqn:C2; cbn in E; try discriminate.
      * destruct (py_getitem loc "id") as [id|e] eqn:G2; cbn in E; [|discriminate].
        destruct (hashable id); [|discriminate].
        destruct (IH _ E) as [D F]. split.
        -- intros Da. apply D, distinct_set_add, Da.
        -- intros x Hx. destruct (F x Hx) as [Hin|(it & Hit & Eit)].
           ++ unfold set_add in Hin.
              destruct (existsb (fun y => py_eq y id) acc); [now left|].
              apply in_app_or in Hin. destruct Hin as [Hin|[<-|[]]]; [now left|].
              right. exists item. split; [now left|].
              unfold item_id. rewrite G1. cbn. exact G2.
           ++ right. exists it. split; [now right|exact Eit].
      * destruct (IH _ E) as [D F]. split; [exact D|].
        intros x Hx. destruct (F x Hx) as [Hin|(it & Hit & Eit)]; [now left|].
        right. exists it. split; [now right|exact Eit].
    + destruct (IH _ E) as [D F]. split; [exact D|].
      intros x Hx. destruct (F x Hx) as [Hin|(it & Hit & Eit)]; [now left|].
      right. exists it. split; [now right|exact Eit].
Qed.

(** C4, as the code has it: for a 200 response to the data request
    whose body holds under [data] a non-empty array over which the loop
    completes, the call returns the first [limit] elements of the set
    of collected identifiers in the order the set is iterated: no two
    of them are equal, each is the [location.id] of an item of the
    response, and there are at most [limit] of them when [limit] is
    not negative. *)
Theorem discovered_locations
    (w : world) limit r d (items ids : list pyobj) :
  set_is_unordered ->
  data_response w (snd (get_top_populated_countries self limit w)) = Some r ->
  status_code r = 200%Z ->
  json r = inr (VDict d) ->
  dict_get "data" d = Some (VList items) ->
  items <> [] ->
  location_ids items [] = Ok ids ->
  exists found,
    fst (get_top_populated_countries self limit w) = Ok found
    /\ found = slice_to (set_iteration ids) limit
    /\ distinct found
    /\ (forall id, In id found ->
                   exists item, In item items /\ item_id item = Ok id)
    /\ ((0 <= limit)%Z -> (Z.of_nat (List.length found) <= limit)%Z).
Proof.
  intros U D S J Data NE L.
  rewrite (discovery_success w limit r (VDict d) D S J).
  unfold locations_of. cbn. rewrite Data. cbn.
  destruct items as [|item rest]; [congruence|]. cbn [rbind].
  rewrite L. cbn [rbind].
  eexists. split; [reflexivity|]. split; [reflexivity|].
  destruct (location_ids_sound _ _ _ L) as [Dist From].
  destruct (slice_to_firstn (set_iteration ids) limit) as (n & -> & Hn).
  split; [|split].
  - apply distinct_firstn, (distinct_permutation ids).
    + apply Permutation_sym, U.
    + apply Dist. constructor.
  - intros id Hid. apply firstn_In in Hid.
    apply (Permutation_in id (U ids)) in Hid.
    destruct (From id Hid) as [[]|H]. exact H.
  - intros P. rewrite (Hn P).
    pose proof (firstn_le_length (Z.to_nat limit) (set_iteration ids)). lia.
Qed.

(** *** Credential resolution, further *)

(** X1: credential resolution never fails and touches neither the
    network nor the page; a key it returns is non-empty, is the one the
    session or the environment held, and is in the session afterwards;
    when it returns none the world is unchanged; and resolving again
    gives the same answer without changing anything. *)
Theorem credential_resolution (w : world) :
  exists k w',
    _get_api_key self w = (Ok k, w')
    /\ same_channels w w'
    /\ (forall s, k = Some s ->
                  truthy_str s = true
                  /\ (un_api_key w = Some (Some s) \/ api_key self = Some s)
                  /\ un_api_key w' = Some (Some s))
    /\ (k = None -> w' = w)
    /\ _get_api_key self w' = (Ok k, w').
Proof.
  unfold _get_api_key, session_key, same_channels. run.
  destruct (un_api_key w) as [[c|]|] eqn:E; [destruct (truthy_str c) eqn:T|..].
  1: exists (Some c), w; rewrite E, T; split; [reflexivity|].
  2-4: destruct (api_key self) as [e|] eqn:A; cbn;
    [destruct (truthy_str e) eqn:Te|];
    first [ exists (Some e), (with_session (Some e) w); cbn; rewrite Te;
            split; [reflexivity|]
          | exists None, w; rewrite E, ?T; split; [reflexivity|] ].
  all: repeat split; intros; subst; try discriminate;
    repeat match goal with H : Some _ = Some _ |- _ => injection H as <- end;
    auto.
Qed.

(** X2: when neither the session nor the environment gives a key,
    [_check_api_key_input] renders the warning, the sign-up hint and
    the text input, sends nothing, and takes the key from the widget:
    a non-empty input is returned and stored in the session, an empty
    one gives [None] and leaves the session as it was. *)
Theorem prompt_without_credential (w : world) :
  fst (_get_api_key self w) = Ok None ->
  exists r w',
    _check_api_key_input self w = (r, w')
    /\ ui w' = (ui w ++ key_prompt)%list
    /\ exchanges w' = exchanges w
    /\ (if truthy_str (api_key_input w)
        then r = Ok (Some (api_key_input w))
             /\ un_api_key w' = Some (Some (api_key_input w))
        else r = Ok None /\ un_api_key w' = un_api_key w).
Proof.
  intros N. unfold _check_api_key_input, bind.
  destruct (get_api_key_cases w) as [(k & w1 & E & _)|E]; rewrite E in *;
    [discriminate|].
  run. destruct (truthy_str (api_key_input w)) eqn:T;
    eexists _, _; (split; [reflexivity|]); cbn; rewrite <- !app_assoc; cbn; auto.
Qed.

(** a known key is returned as it is, and nothing is rendered *)
Lemma no_prompt_with_credential (w : world) (k : string) :
  fst (_get_api_key self w) = Ok (Some k) ->
  _check_api_key_input self w = _get_api_key self w.
Proof.
  intros K. unfold _check_api_key_input, bind.
  destruct (get_api_key_cases w) as [(k' & w1 & E & [_ T] & _)|E]; rewrite E in *;
    [|discriminate].
  cbn. rewrite T. reflexivity.
Qed.

(** X3: without a credential no operation sends a request: listing
    targets gives an empty [data] array, the fetch an empty table and
    the discovery the World alone; listing indicators gives an empty
    [data] array when the key widget is empty as well. *)
Theorem no_credential_no_request (w : world) (op : operation) :
  fst (_get_api_key self w) = Ok None ->
  (op = ListIndicators -> api_key_input w = "") ->
  exchanges (world_after self op w) = exchanges w
  /\ un_api_key (world_after self op w) = un_api_key w
  /\ match op with
     | ListIndicators => fst (get_indicators self w) = Ok empty_data
     | ListTargets => fst (get_available_targets self w) = Ok empty_data
     | FetchSeries name locations =>
         fst (get_data_for_indicator self name locations w) = Ok []
     | DiscoverLocations limit =>
         fst (get_top_populated_countries self limit w) = Ok [VInt 900]
     end.
Proof.
  intros N I.
  destruct (get_api_key_cases w) as [(k & w1 & E & _)|E]; rewrite E in N;
    [discriminate|].
  destruct op as [| |name locations|limit]; cbn [world_after].
  - unfold get_indicators, _check_api_key_input, bind. rewrite E.
    run. rewrite (I eq_refl). cbn. auto.
  - unfold get_available_targets, bind. rewrite E. cbn. auto.
  - rewrite (fetch_without_key w name locations E). cbn. auto.
  - unfold get_top_populated_countries, try_except,
      get_top_populated_countries_body, bind. rewrite E. cbn. auto.
Qed.

(** *** The requests of a call *)

Ltac sent_cases :=
  (let R := fresh in intros R; injection R as <- <-);
  unfold new_exchanges, cleared; cbn;
  rewrite <- ?app_assoc, ?skipn_length_self, ?skipn_length_app; cbn;
  repeat match goal with
         | E : http_get _ _ _ = _ |- _ => rewrite <- E; clear E
         end.

Lemma indicators_sent_cached (w : world) (k : string) :
  cached k w ->
  new_exchanges w (snd (get_indicators self w)) = [indicators_exchange self k w].
Proof.
  intros C. rewrite (get_indicators_cached w k C). cbn zeta.
  destruct (ex_outcome (indicators_exchange self k w)) as [m|r];
    [|destruct (status_code r =? 200)%Z; [|destruct (status_code r =? 401)%Z]];
    unfold new_exchanges, cleared; cbn; apply skipn_length_app.
Qed.

Lemma targets_sent_cached (w : world) (k : string) :
  cached k w ->
  new_exchanges w (snd (get_available_targets self w))
  = [issued (base_api_url self ++ "/targets") k w].
Proof.
  intros C.
  destruct (get_available_targets self w) as [res w'] eqn:R. cbn [snd]. revert R.
  unfold get_available_targets, bind.
  rewrite (get_api_key_cached w k C). destruct C as [_ T]. cbn [truthy_key].
  rewrite T. run.
  repeat split_match; sent_cases; reflexivity.
Qed.

Lemma fetch_sent_cached (w : world) (k : string) name locations :
  cached k w ->
  let x1 := indicators_exchange self k w in
  new_exchanges w (snd (get_data_for_indicator self name locations w)) = [x1]
  \/ exists id,
      new_exchanges w (snd (get_data_for_indicator self name locations w))
      = [x1; issued (data_url self id locations) k (with_exchange x1 w)].
Proof.
  intros C.
  destruct (get_data_for_indicator self name locations w) as [res w'] eqn:R.
  cbn [fst snd]. revert R.
  unfold get_data_for_indicator, try_except, get_data_for_indicator_body.
  unfold bind at 1. rewrite (get_api_key_cached w k C).
  pose proof C as [_ T]. cbn [truthy_key]. rewrite T. cbn [negb].
  unfold bind at 1. rewrite (get_indicator_names_cached w k C). cbn zeta.
  destruct (ex_outcome (indicators_exchange self k w)) as [m|r1] eqn:X;
    [|destruct (status_code r1 =? 200)%Z eqn:S2;
      [destruct (json r1) as [m|v] eqn:J; [|destruct (catalog_of v) as [cat|e] eqn:Cat]
      |destruct (status_code r1 =? 401)%Z eqn:S4]];
    run; repeat split_match; sent_cases;
    first [left; reflexivity | right; eexists; reflexivity].
Qed.

Lemma discovery_sent_cached (w : world) (k : string) limit :
  cached k w ->
  let x1 := indicators_exchange self k w in
  new_exchanges w (snd (get_top_populated_countries self limit w)) = [x1]
  \/ exists id,
      new_exchanges w (snd (get_top_populated_countries self limit w))
      = [x1; issued (discovery_url self id) k (with_exchange x1 w)].
Proof.
  intros C.
  destruct (get_top_populated_countries self limit w) as [res w'] eqn:R.
  cbn [fst snd]. revert R.
  unfold get_top_populated_countries, try_except, get_top_populated_countries_body.
  unfold bind at 1. rewrite (get_api_key_cached w k C).
  pose proof C as [_ T]. cbn [truthy_key]. rewrite T. cbn [negb].
  unfold bind at 1. rewrite (get_indicator_names_cached w k C). cbn zeta.
  destruct (ex_outcome (indicators_exchange self k w)) as [m|r1] eqn:X;
    [|destruct (status_code r1 =? 200)%Z eqn:S2;
      [destruct (json r1) as [m|v] eqn:J; [|destruct (catalog_of v) as [cat|e] eqn:Cat]
      |destruct (status_code r1 =? 401)%Z eqn:S4]];
    run; repeat split_match; sent_cases;
    first [left; reflexivity | right; eexists; reflexivity].
Qed.

Lemma new_exchanges_none (w w' : world) :
  exchanges w' = exchanges w -> new_exchanges w w' = [].
Proof. unfold new_exchanges. intros ->. apply skipn_length_self. Qed.

Lemma issued_authenticated (url k : string) (w : world) :
  truthy_str k = true -> authenticated (issued url k w).
Proof. intros T. exists k. split; [exact T|reflexivity]. Qed.

(** X4: an operation sends at most one request when it lists
    indicators or targets and at most two when it fetches a series or
    discovers locations; every request carries a non-empty bearer
    token; and the first request of every operation but the listing of
    targets goes to [/indicators]. *)
Theorem requests_are_bounded_and_authenticated (op : operation) (w : world) :
  (List.length (new_exchanges w (world_after self op w)) <= max_requests op)%nat
  /\ Forall authenticated (new_exchanges w (world_after self op w))
  /\ (needs_catalog op = true ->
      forall x, hd_error (new_exchanges w (world_after self op w)) = Some x ->
                ex_url x = base_api_url self ++ "/indicators").
Proof.
  destruct op as [| |name locations|limit]; cbn [world_after max_requests needs_catalog].
  - destruct (check_api_key_input_cases w) as [(k & w' & E & C & S)|(w' & E & S & _)].
    + rewrite (get_indicators_resolved w w' k E C), (new_exchanges_same w w' _ S),
        (indicators_sent_cached w' k C).
      repeat split; cbn; auto.
      * repeat constructor. apply (issued_authenticated _ k w'), C.
      * intros _ x [= <-]. reflexivity.
    + unfold get_indicators, bind. rewrite E. cbn.
      rewrite (new_exchanges_none w w' S). repeat split; cbn; auto; discriminate.
  - destruct (get_api_key_cases w) as [(k & w' & E & C & S & _)|E].
    + rewrite (get_available_targets_resolved w w' k E C),
        (new_exchanges_same w w' _ S), (targets_sent_cached w' k C).
      repeat split; cbn; auto; try discriminate.
      repeat constructor. apply issued_authenticated, C.
    + unfold get_available_targets, bind. rewrite E. cbn.
      rewrite (new_exchanges_none w w eq_refl). repeat split; cbn; auto; discriminate.
  - destruct (get_api_key_cases w) as [(k & w' & E & C & S & _)|E].
    + rewrite (get_data_for_indicator_resolved w w' k name locations E C),
        (new_exchanges_same w w' _ S).
      destruct (fetch_sent_cached w' k name locations C) as [->|(id & ->)];
        repeat split; cbn; auto;
        try (repeat constructor;
             first [apply (issued_authenticated _ k w'), C
                   |apply issued_authenticated, C]);
        intros _ x [= <-]; reflexivity.
    + rewrite (fetch_without_key w name locations E). cbn [snd].
      rewrite (new_exchanges_none w w eq_refl). repeat split; cbn; auto; discriminate.
  - destruct (get_api_key_cases w) as [(k & w' & E & C & S & _)|E].
    + rewrite (get_top_populated_countries_resolved w w' k limit E C),
        (new_exchanges_same w w' _ S).
      destruct (discovery_sent_cached w' k limit C) as [->|(id & ->)];
        repeat split; cbn; auto;
        try (repeat constructor;
             first [apply (issued_authenticated _ k w'), C
                   |apply issued_authenticated, C]);
        intros _ x [= <-]; reflexivity.
    + unfold get_top_populated_countries, try_except,
        get_top_populated_countries_body, bind. rewrite E. cbn.
      rewrite (new_exchanges_none w w eq_refl). repeat split; cbn; auto; discriminate.
Qed.

Ltac known_bodies :=
  repeat match goal with
         | A : ?x = inr ?a, B : ?x = inr ?b |- _ =>
             rewrite A in B; injection B as <-
         | A : ?x = inl _, B : ?x = inr _ |- _ => rewrite A in B; discriminate
         | A : ?x = Ok ?a, B : ?x = Ok ?b |- _ =>
             rewrite A in B; injection B as <-
         | A : ?x = Raise _, B : ?x = Ok _ |- _ => rewrite A in B; discriminate
         | A : ?x = Some ?a, B : ?x = Some ?b |- _ =>
             rewrite A in B; injection B as <-
         | A : ?x = None, B : ?x = Some _ |- _ => rewrite A in B; discriminate
         end.

Ltac catalog_cases :=
  (let R := fresh in intros R; injection R as <- <-);
  unfold catalog_response, data_response, new_exchanges, cleared; cbn;
  rewrite <- ?app_assoc, ?skipn_length_self, ?skipn_length_app; cbn;
  repeat match goal with
         | E : ?a = _ |- context [match ?a with _ => _ end] => rewrite E; cbn
         end;
  try discriminate;
  (let R := fresh in intros R; injection R as <-);
  intros; status_facts; try congruence; try lia; known_bodies.

Lemma fetch_urls_cached (w : world) (k : string) name locations r1 body catalog id :
  cached k w ->
  catalog_response w (snd (get_data_for_indicator self name locations w)) = Some r1 ->
  status_code r1 = 200%Z -> json r1 = inr body ->
  catalog_of body = Ok catalog ->
  pydict_get (VStr name) catalog = Some id ->
  map ex_url (new_exchanges w (snd (get_data_for_indicator self name locations w)))
  = [base_api_url self ++ "/indicators";
     base_api_url self ++ "/data/indicators/" ++ py_str id
       ++ "/locations/" ++ locations_path locations].
Proof.
  intros C.
  destruct (get_data_for_indicator self name locations w) as [res w'] eqn:R.
  cbn [fst snd]. revert R.
  unfold get_data_for_indicator, try_except, get_data_for_indicator_body.
  unfold bind at 1. rewrite (get_api_key_cached w k C).
  pose proof C as [_ T]. cbn [truthy_key]. rewrite T. cbn [negb].
  unfold bind at 1. rewrite (get_indicator_names_cached w k C). cbn zeta.
  destruct (ex_outcome (indicators_exchange self k w)) as [m|r] eqn:X;
    [|destruct (status_code r =? 200)%Z eqn:S2;
      [destruct (json r) as [m|v] eqn:J; [|destruct (catalog_of v) as [cat|e] eqn:Cat]
      |destruct (status_code r =? 401)%Z eqn:S4]];
    run; repeat split_match; catalog_cases;
    unfold data_url, locations_path; destruct locations as [[|l ls]|]; reflexivity.
Qed.

(** X5: when the catalog request of a fetch is answered 200 with a
    body that yields a catalog holding the name, the call sends exactly
    two requests: the catalog request, and a data request for the
    identifier the catalog gives for the name, scoped to the given
    locations joined by commas, or to the World (900) when the
    locations are absent or an empty list. *)
Theorem fetch_requests_the_catalog_identifier
    (w : world) name locations r1 body catalog id :
  catalog_response w (snd (get_data_for_indicator self name locations w)) = Some r1 ->
  status_code r1 = 200%Z -> json r1 = inr body ->
  catalog_of body = Ok catalog ->
  pydict_get (VStr name) catalog = Some id ->
  map ex_url (new_exchanges w (snd (get_data_for_indicator self name locations w)))
  = [base_api_url self ++ "/indicators";
     base_api_url self ++ "/data/indicators/" ++ py_str id
       ++ "/locations/" ++ locations_path locations].
Proof.
  destruct (get_api_key_cases w) as [(k & w' & E & C & S & _)|E].
  - rewrite (get_data_for_indicator_resolved w w' k name locations E C),
      (catalog_response_same w w' _ S), (new_exchanges_same w w' _ S).
    apply (fetch_urls_cached w' k name locations r1 body catalog id C).
  - rewrite (fetch_without_key w name locations E). cbn [snd].
    rewrite (proj1 (response_none w w eq_refl)). discriminate.
Qed.

Lemma population_indicators_filter (names : list pyobj) :
  Forall is_string names ->
  population_indicators names = Ok (filter mentions_total_population names).
Proof.
  induction 1 as [|name rest [s ->] _ IH]; cbn; [reflexivity|].
  rewrite IH. cbn. destruct (contains_str "Total Population" s); reflexivity.
Qed.

Lemma discovery_urls_cached (w : world) (k : string) limit r1 body catalog :
  cached k w ->
  catalog_response w (snd (get_top_populated_countries self limit w)) = Some r1 ->
  status_code r1 = 200%Z -> json r1 = inr body ->
  catalog_of body = Ok catalog ->
  match population_indicators (pydict_keys catalog) with
  | Ok (first :: _) =>
      forall id, pydict_get first catalog = Some id ->
        map ex_url (new_exchanges w (snd (get_top_populated_countries self limit w)))
        = [base_api_url self ++ "/indicators"; discovery_url self id]
  | _ =>
      map ex_url (new_exchanges w (snd (get_top_populated_countries self limit w)))
      = [base_api_url self ++ "/indicators"]
      /\ fst (get_top_populated_countries self limit w) = Ok [VInt 900]
  end.
Proof.
  intros C.
  destruct (get_top_populated_countries self limit w) as [res w'] eqn:R.
  cbn [fst snd]. revert R.
  unfold get_top_populated_countries, try_except, get_top_populated_countries_body.
  unfold bind at 1. rewrite (get_api_key_cached w k C).
  pose proof C as [_ T]. cbn [truthy_key]. rewrite T. cbn [negb].
  unfold bind at 1. rewrite (get_indicator_names_cached w k C). cbn zeta.
  destruct (ex_outcome (indicators_exchange self k w)) as [m|r] eqn:X;
    [|destruct (status_code r =? 200)%Z eqn:S2;
      [destruct (json r) as [m|v] eqn:J; [|destruct (catalog_of v) as [cat|e] eqn:Cat]
      |destruct (status_code r =? 401)%Z eqn:S4]];
    run; repeat split_match; catalog_cases;
    repeat match goal with
           | E : ?a = _ |- context [match ?a with _ => _ end] => rewrite E
           end;
    try (split; reflexivity); intros; unfold catalog_item in *; known_bodies;
    try reflexivity;
    repeat match goal with
           | A : ?x = _, B : context [match ?x with _ => _ end] |- _ =>
               rewrite A in B; try discriminate
           end;
    known_bodies;
    repeat match goal with
           | H : Ok _ = Ok _ |- _ => first [injection H as <- | injection H as ->]
           end;
    try reflexivity.
Qed.

(** X6: the discovery asks for the first catalog name, in catalog
    order, that contains ["Total Population"], at the World location;
    when no catalog name contains it, only the catalog request is sent
    and the World alone is returned. *)
Theorem discovery_uses_first_population_indicator
    (w : world) limit r1 body catalog :
  catalog_response w (snd (get_top_populated_countries self limit w)) = Some r1 ->
  status_code r1 = 200%Z -> json r1 = inr body ->
  catalog_of body = Ok catalog ->
  Forall is_string (pydict_keys catalog) ->
  (forall first others id,
      filter mentions_total_population (pydict_keys catalog) = first :: others ->
      pydict_get first catalog = Some id ->
      map ex_url (new_exchanges w (snd (get_top_populated_countries self limit w)))
      = [base_api_url self ++ "/indicators";
         base_api_url self ++ "/data/indicators/" ++ py_str id ++ "/locations/900"])
  /\ (filter mentions_total_population (pydict_keys catalog) = [] ->
      map ex_url (new_exchanges w (snd (get_top_populated_countries self limit w)))
      = [base_api_url self ++ "/indicators"]
      /\ fst (get_top_populated_countries self limit w) = Ok [VInt 900]).
Proof.
  intros R S J Cat Str.
  assert (H : match population_indicators (pydict_keys catalog) with
              | Ok (first :: _) =>
                  forall id, pydict_get first catalog = Some id ->
                    map ex_url (new_exchanges w
                                  (snd (get_top_populated_countries self limit w)))
                    = [base_api_url self ++ "/indicators"; discovery_url self id]
              | _ =>
                  map ex_url (new_exchanges w
                                (snd (get_top_populated_countries self limit w)))
                  = [base_api_url self ++ "/indicators"]
                  /\ fst (get_top_populated_countries self limit w) = Ok [VInt 900]
              end).
  { destruct (get_api_key_cases w) as [(k & w' & E & C & S' & _)|E].
    - revert R. rewrite (get_top_populated_countries_resolved w w' k limit E C),
        (catalog_response_same w w' _ S'), (new_exchanges_same w w' _ S').
      intros R. apply (discovery_urls_cached w' k limit r1 body catalog C R S J Cat).
    - exfalso. revert R. unfold get_top_populated_countries, try_except,
        get_top_populated_countries_body, bind. rewrite E. cbn.
      rewrite (proj1 (response_none w w eq_refl)). discriminate. }
  rewrite (population_indicators_filter _ Str) in H. split.
  - intros first others id F. rewrite F in H. apply H.
  - intros F. rewrite F in H. exact H.
Qed.

Lemma fetch_data_401_cached (w : world) (k : string) name locations r :
  cached k w ->
  data_response w (snd (get_data_for_indicator self name locations w)) = Some r ->
  status_code r = 401%Z ->
  fst (get_data_for_indicator self name locations w) = Ok [].
Proof.
  intros C.
  destruct (get_data_for_indicator self name locations w) as [res w'] eqn:R.
  cbn [fst snd]. revert R.
  unfold get_data_for_indicator, try_except, get_data_for_indicator_body.
  unfold bind at 1. rewrite (get_api_key_cached w k C).
  pose proof C as [_ T]. cbn [truthy_key]. rewrite T. cbn [negb].
  unfold bind at 1. rewrite (get_indicator_names_cached w k C). cbn zeta.
  destruct (ex_outcome (indicators_exchange self k w)) as [m|r1] eqn:X;
    [|destruct (status_code r1 =? 200)%Z eqn:S2;
      [destruct (json r1) as [m|v] eqn:J; [|destruct (catalog_of v) as [cat|e] eqn:Cat]
      |destruct (status_code r1 =? 401)%Z eqn:S4]];
    run; repeat split_match; response_cases.
Qed.

(** X7: when the data request of a fetch is answered 401, the call
    does not raise: it returns an empty table, and the session
    credential is cleared. *)
Theorem fetch_returns_empty_on_data_401 (w : world) name locations r :
  data_response w (snd (get_data_for_indicator self name locations w)) = Some r ->
  status_code r = 401%Z ->
  fst (get_data_for_indicator self name locations w) = Ok []
  /\ un_api_key (snd (get_data_for_indicator self name locations w)) = Some None.
Proof.
  intros D S. split.
  - revert D S. destruct (get_api_key_cases w) as [(k & w' & E & C & S' & _)|E].
    + rewrite (get_data_for_indicator_resolved w w' k name locations E C),
        (data_response_same w w' _ S').
      apply (fetch_data_401_cached w' k name locations r C).
    + rewrite (fetch_without_key w name locations E). reflexivity.
  - apply get_data_for_indicator_401.
    unfold unauthorized_between. revert D. unfold data_response.
    destruct (new_exchanges w _) as [|x1 [|x2 rest]]; try discriminate.
    destruct (ex_outcome x2) as [m|r2] eqn:O; [discriminate|]. intros [= ->].
    cbn. unfold is_401 at 2. rewrite O, S. cbn. apply orb_true_r.
Qed.

(** X8: a 200 answer to the data request whose body is an object
    without a [data] key gives an empty table; one whose [data] is the
    empty array makes the call raise, with the message of the
    [KeyError] for the column ['year'] of the frame without columns. *)
Theorem fetch_without_observations (w : world) name locations r d :
  data_response w (snd (get_data_for_indicator self name locations w)) = Some r ->
  status_code r = 200%Z -> json r = inr (VDict d) ->
  (dict_get "data" d = None ->
   fst (get_data_for_indicator self name locations w) = Ok [])
  /\ (dict_get "data" d = Some (VList []) ->
      fst (get_data_for_indicator self name locations w)
      = Raise (Exception ("Error fetching data for " ++ name ++ ": 'year'"))).
Proof.
  intros D S J. rewrite (fetch_success w name locations r (VDict d) D S J).
  unfold frame_of. cbn. split; intros ->; reflexivity.
Qed.

(** X9: a table is returned whole or not at all: when the items before
    some item of the data array map to records and that item does not,
    the call raises the error of that item wrapped with the indicator
    name. *)
Theorem fetch_fails_on_first_bad_item
    (w : world) name locations r d (before after : list pyobj) (item : pyobj) e :
  data_response w (snd (get_data_for_indicator self name locations w)) = Some r ->
  status_code r = 200%Z -> json r = inr (VDict d) ->
  dict_get "data" d = Some (VList (before ++ item :: after)) ->
  Forall (fun i => exists row, make_record i = Ok row) before ->
  make_record item = Raise e ->
  fst (get_data_for_indicator self name locations w)
  = Raise (Exception ("Error fetching data for " ++ name ++ ": " ++ str_exn e)).
Proof.
  intros D S J Data B Bad. rewrite (fetch_success w name locations r (VDict d) D S J).
  unfold frame_of. cbn. rewrite Data. cbn.
  assert (M : make_records (before ++ item :: after) = Raise e).
  { clear - B Bad. induction B as [|i rest [row Ri] _ IH]; cbn.
    - rewrite Bad. reflexivity.
    - rewrite Ri. cbn. rewrite IH. reflexivity. }
  rewrite M. reflexivity.
Qed.

(** *** The catalog, further *)

Lemma pydict_keys_set (k v : pyobj) (d : pydict) :
  pydict_keys (pydict_set k v d) = set_add k (pydict_keys d).
Proof.
  unfold set_add, pydict_keys. induction d as [|[k' v'] rest IH]; cbn; [reflexivity|].
  destruct (py_eq k' k) eqn:K; cbn; [reflexivity|].
  rewrite IH. destruct (existsb (fun y => py_eq y k) (map fst rest)); reflexivity.
Qed.

Lemma indicator_dict_keys (items : list pyobj) (acc catalog : pydict) :
  Forall indicator_item items ->
  indicator_dict items acc = Ok catalog ->
  pydict_keys catalog
  = fold_left (fun seen x => set_add x seen) (item_names items) (pydict_keys acc).
Proof.
  intros W. revert acc. induction W as [|item rest (n & i & E & Hn) W IH]; intros acc.
  - cbn. intros [= <-]. reflexivity.
  - destruct item as [| | | | | |d]; try discriminate.
    unfold item_names. cbn [flat_map]. rewrite E. cbn in E.
    destruct (dict_get "name" d) as [n'|] eqn:Dn; [|discriminate].
    destruct (dict_get "id" d) as [i'|] eqn:Di; [|discriminate].
    injection E as -> ->. cbn. rewrite Dn, Di. cbn. rewrite Hn.
    intros R. rewrite (IH _ R), pydict_keys_set. reflexivity.
Qed.

Lemma first_appearances_distinct (l seen : list pyobj) :
  distinct seen -> distinct (fold_left (fun s x => set_add x s) l seen).
Proof.
  revert seen. induction l as [|x rest IH]; cbn; intros seen D; [exact D|].
  apply IH, distinct_set_add, D.
Qed.

(** X10: for a 200 indicators response whose items are dicts with a
    hashable name and an id, the keys of the catalog are the names of
    the response in the order of their first appearance, no two of
    them equal. *)
Theorem catalog_keys_follow_the_response
    (w : world) r d (items : list pyobj) :
  catalog_response w (snd (get_indicator_names self w)) = Some r ->
  status_code r = 200%Z ->
  json r = inr (VDict d) ->
  dict_get "data" d = Some (VList items) ->
  Forall indicator_item items ->
  exists catalog,
    fst (get_indicator_names self w) = Ok catalog
    /\ pydict_keys catalog = first_appearances (item_names items)
    /\ distinct (pydict_keys catalog).
Proof.
  intros R S J D W.
  rewrite (get_indicator_names_ok w r (VDict d) R S J).
  destruct (indicator_dict_last items [] W) as (catalog & I & _).
  exists catalog. split; [unfold catalog_of; cbn; rewrite D; cbn; exact I|].
  pose proof (indicator_dict_keys items [] catalog W I) as K. cbn in K.
  split; [exact K|]. rewrite K. apply first_appearances_distinct. constructor.
Qed.

Lemma last_id_some (q v : pyobj) (items : list pyobj) :
  last_id q items = Some v ->
  exists item n, In item items /\ item_name_id item = Some (n, v) /\ py_eq n q = true.
Proof.
  induction items as [|item rest IH]; cbn; [discriminate|].
  destruct (last_id q rest) as [i|] eqn:L.
  - intros [= ->]. destruct (IH eq_refl) as (it & n & Hin & E & P).
    exists it, n. auto.
  - destruct (item_name_id item) as [[n i]|] eqn:E; [|discriminate].
    destruct (py_eq n q) eqn:P; [|discriminate]. intros [= ->].
    exists item, n. auto.
Qed.

Lemma last_id_found (q : pyobj) (items : list pyobj) item n i :
  In item items -> item_name_id item = Some (n, i) -> py_eq n q = true ->
  last_id q items <> None.
Proof.
  induction items as [|it rest IH]; cbn; [tauto|].
  intros [->|Hin] E P.
  - destruct (last_id q rest); [discriminate|]. rewrite E, P. discriminate.
  - specialize (IH Hin E P). destruct (last_id q rest); [discriminate|congruence].
Qed.

(** X11: under the same conditions a lookup in the catalog never
    invents a pair: the identifier found for a name is the identifier
    of an item of the response with an equal name, and a name is found
    exactly when some item of the response carries it. *)
Theorem catalog_lookup_is_sound_and_complete
    (w : world) r d (items : list pyobj) :
  catalog_response w (snd (get_indicator_names self w)) = Some r ->
  status_code r = 200%Z ->
  json r = inr (VDict d) ->
  dict_get "data" d = Some (VList items) ->
  Forall indicator_item items ->
  exists catalog,
    fst (get_indicator_names self w) = Ok catalog
    /\ (forall q v, pydict_get q catalog = Some v ->
          exists item n, In item items /\ item_name_id item = Some (n, v)
                         /\ py_eq n q = true)
    /\ (forall q, pydict_get q catalog <> None <->
          exists item n i, In item items /\ item_name_id item = Some (n, i)
                           /\ py_eq n q = true).
Proof.
  intros R S J D W.
  rewrite (get_indicator_names_ok w r (VDict d) R S J).
  destruct (indicator_dict_last items [] W) as (catalog & I & L).
  exists catalog. split; [unfold catalog_of; cbn; rewrite D; cbn; exact I|].
  assert (G : forall q, pydict_get q catalog = last_id q items).
  { intros q. rewrite L. destruct (last_id q items); reflexivity. }
  split.
  - intros q v. rewrite G. apply last_id_some.
  - intros q. rewrite G. split.
    + destruct (last_id q items) as [v|] eqn:E; [|congruence]. intros _.
      destruct (last_id_some q v items E) as (item & n & Hin & En & P).
      exists item, n, v. auto.
    + intros (item & n & i & Hin & En & P). apply (last_id_found q items item n i); auto.
Qed.

(** X12: no partial catalog: when the items before some item of a 200
    indicators response are well formed and that item is a dict
    without a [name] key, [get_indicator_names] raises [KeyError] for
    ['name']; when it has a name but no [id] key, [KeyError] for
    ['id']. *)
Theorem catalog_fails_on_incomplete_item
    (w : world) r d (before after : list pyobj) di :
  catalog_response w (snd (get_indicator_names self w)) = Some r ->
  status_code r = 200%Z ->
  json r = inr (VDict d) ->
  dict_get "data" d = Some (VList (before ++ VDict di :: after)) ->
  Forall indicator_item before ->
  (dict_get "name" di = None ->
   fst (get_indicator_names self w) = Raise (KeyError "name"))
  /\ (dict_get "name" di <> None -> dict_get "id" di = None ->
      fst (get_indicator_names self w) = Raise (KeyError "id")).
Proof.
  intros R S J D W.
  rewrite (get_indicator_names_ok w r (VDict d) R S J).
  unfold catalog_of. cbn. rewrite D. cbn.
  assert (G : forall e,
             (let* name := py_getitem (VDict di) "name" in
              let* id := py_getitem (VDict di) "id" in
              if hashable name then Ok tt else Ok tt) = Raise e ->
             forall acc, indicator_dict (before ++ VDict di :: after) acc = Raise e).
  { clear - W. intros e Bad.
    induction W as [|item rest (n & i & E & Hn) W IH]; intros acc.
    - cbn in *. destruct (dict_get "name" di); cbn in *; [|congruence].
      destruct (dict_get "id" di); cbn in *; [|congruence].
      destruct (hashable p); discriminate.
    - destruct item as [| | | | | |dd]; try discriminate. cbn in E.
      destruct (dict_get "name" dd) as [n'|] eqn:Dn; [|discriminate].
      destruct (dict_get "id" dd) as [i'|] eqn:Di; [|discriminate].
      injection E as -> ->. cbn. rewrite Dn, Di. cbn. rewrite Hn. apply IH. }
  split.
  - intros N. apply G. cbn. rewrite N. reflexivity.
  - intros N I. apply G. cbn. destruct (dict_get "name" di); [|congruence].
    rewrite I. reflexivity.
Qed.

(** *** The listings *)

Lemma listing_resolved (targets : bool) (w : world) :
  (exists k w', cached k w' /\ exchanges w' = exchanges w
                /\ listing self targets w = listing self targets w')
  \/ new_exchanges w (snd (listing self targets w)) = [].
Proof.
  destruct targets; cbn [listing].
  - destruct (get_api_key_cases w) as [(k & w' & E & C & S & _)|E].
    + left. exists k, w'. repeat split; try apply C; auto.
      apply (get_available_targets_resolved w w' k E C).
    + right. unfold get_available_targets, bind. rewrite E. cbn.
      apply new_exchanges_none. reflexivity.
  - destruct (check_api_key_input_cases w) as [(k & w' & E & C & S)|(w' & E & S & _)].
    + left. exists k, w'. repeat split; try apply C; auto.
      apply (get_indicators_resolved w w' k E C).
    + right. unfold get_indicators, bind. rewrite E. cbn.
      apply new_exchanges_none, S.
Qed.

Lemma listing_cached (targets : bool) (w : world) (k : string) :
  cached k w ->
  listing self targets w =
  let x := issued (base_api_url self ++ "/" ++ listed targets) k w in
  match ex_outcome x with
  | ConnectionFailed m => (Raise (RequestException m), with_exchange x w)
  | Responded r =>
      if (status_code r =? 200)%Z then
        (match json r with
         | inl m => Raise (JSONDecodeError m)
         | inr v => Ok v
         end, with_exchange x w)
      else if (status_code r =? 401)%Z then (Ok empty_data, cleared (with_exchange x w))
      else (Raise (Exception ("Error fetching " ++ listed targets ++ ": "
                                ++ str_int (status_code r))),
            with_exchange x w)
  end.
Proof.
  intros C. destruct targets; cbn [listing listed].
  - unfold get_available_targets, bind.
    rewrite (get_api_key_cached w k C). destruct C as [_ T]. cbn [truthy_key].
    rewrite T. cbn [negb]. unfold issued. run.
    repeat split_match; reflexivity.
  - apply (get_indicators_cached w k C).
Qed.

(** X13: a listing (of indicators or of targets) that sent its request
    returns the JSON body unchanged on 200 and an empty [data] array on
    401; it raises the transport error as it is when the request fails,
    the decoding error when a 200 body is not JSON, and for any other
    status an error that names the listing and the status, leaving the
    session credential in place in these three cases. *)
Theorem listing_outcomes (targets : bool) (w : world) (x : exchange) :
  new_exchanges w (snd (listing self targets w)) = [x] ->
  match ex_outcome x with
  | ConnectionFailed m =>
      fst (listing self targets w) = Raise (RequestException m)
      /\ session_key (un_api_key (snd (listing self targets w))) <> None
  | Responded r =>
      if (status_code r =? 200)%Z then
        match json r with
        | inr body => fst (listing self targets w) = Ok body
        | inl m => fst (listing self targets w) = Raise (JSONDecodeError m)
        end
        /\ session_key (un_api_key (snd (listing self targets w))) <> None
      else if (status_code r =? 401)%Z then
        fst (listing self targets w) = Ok empty_data
      else
        fst (listing self targets w)
        = Raise (Exception ("Error fetching " ++ listed targets ++ ": "
                              ++ str_int (status_code r)))
        /\ session_key (un_api_key (snd (listing self targets w))) <> None
  end.
Proof.
  destruct (listing_resolved targets w) as [(k & w' & C & S & L)| N];
    [rewrite L|rewrite N; discriminate].
  rewrite (new_exchanges_same w w' _ S), (listing_cached targets w' k C). cbn zeta.
  assert (K : session_key (un_api_key w') <> None)
    by (destruct C as [-> T]; cbn; rewrite T; discriminate).
  set (x0 := issued (base_api_url self ++ "/" ++ listed targets) k w').
  destruct (ex_outcome x0) as [m|r] eqn:O;
    [|destruct (status_code r =? 200)%Z eqn:S2;
      [|destruct (status_code r =? 401)%Z eqn:S4]];
    unfold new_exchanges, cleared; cbn [snd fst exchanges with_exchange with_session
                                           with_ui un_api_key];
    rewrite skipn_length_app; intros [= <-]; rewrite O, ?S2, ?S4; auto.
  destruct (json r); auto.
Qed.

(** *** The credential is cleared by a 401 only *)

Lemma kept_from_run {A} (m : M A) (w : world) (k : string) :
  (forall r w', m w = (r, w') ->
                unauthorized_between w w' = false -> un_api_key w' = Some (Some k)) ->
  unauthorized_between w (snd (m w)) = false ->
  un_api_key (snd (m w)) = Some (Some k).
Proof. intros H. destruct (m w) as [r w'] eqn:E. cbn. apply (H r w' eq_refl). Qed.

Ltac kept_cases C :=
  try (let R := fresh in intros R; injection R as <- <-);
  unfold unauthorized_between, new_exchanges, cleared; cbn;
  rewrite <- ?app_assoc, ?skipn_length_self, ?skipn_length_app; cbn;
  unfold is_401; cbn;
  repeat match goal with
         | E : ?a = _ |- context [match ?a with _ => _ end] => rewrite E; cbn
         end;
  intros;
  repeat match goal with
         | X : ex_outcome _ = _ |- _ => progress cbn in X
         end;
  repeat match goal with
         | X : ?a = _, H : context [match ?a with _ => _ end] |- _ =>
             rewrite X in H; cbn in H
         end;
  status_facts;
  repeat match goal with
         | H : _ || _ = false |- _ => apply orb_false_iff in H; destruct H
         end;
  status_facts; try apply C; try congruence; try lia.

Lemma credential_kept_cached (op : operation) (w : world) (k : string) :
  cached k w ->
  unauthorized_between w (world_after self op w) = false ->
  un_api_key (world_after self op w) = Some (Some k).
Proof.
  intros C. destruct op as [| |name locations|limit]; cbn [world_after].
  - rewrite (get_indicators_cached w k C). cbn zeta.
    destruct (ex_outcome (indicators_exchange self k w)) as [m|r] eqn:X;
      [|destruct (status_code r =? 200)%Z eqn:S2;
        [|destruct (status_code r =? 401)%Z eqn:S4]];
      kept_cases C.
  - apply kept_from_run. intros res w'.
    unfold get_available_targets, bind.
    rewrite (get_api_key_cached w k C). pose proof C as [_ T]. cbn [truthy_key].
    rewrite T. run.
    repeat split_match; kept_cases C.
  - apply kept_from_run. intros res w'.
    unfold get_data_for_indicator, try_except, get_data_for_indicator_body.
    unfold bind at 1. rewrite (get_api_key_cached w k C).
    pose proof C as [_ T]. cbn [truthy_key]. rewrite T. cbn [negb].
    unfold bind at 1. rewrite (get_indicator_names_cached w k C). cbn zeta.
    destruct (ex_outcome (indicators_exchange self k w)) as [m|r] eqn:X;
      [|destruct (status_code r =? 200)%Z eqn:S2;
        [destruct (json r) as [m|v]; [|destruct (catalog_of v) as [cat|e]]
        |destruct (status_code r =? 401)%Z eqn:S4]];
      run; repeat split_match; kept_cases C.
  - apply kept_from_run. intros res w'.
    unfold get_top_populated_countries, try_except,
      get_top_populated_countries_body.
    unfold bind at 1. rewrite (get_api_key_cached w k C).
    pose proof C as [_ T]. cbn [truthy_key]. rewrite T. cbn [negb].
    unfold bind at 1. rewrite (get_indicator_names_cached w k C). cbn zeta.
    destruct (ex_outcome (indicators_exchange self k w)) as [m|r] eqn:X;
      [|destruct (status_code r =? 200)%Z eqn:S2;
        [destruct (json r) as [m|v]; [|destruct (catalog_of v) as [cat|e]]
        |destruct (status_code r =? 401)%Z eqn:S4]];
      run; repeat split_match; kept_cases C.
Qed.

Lemma credential_kept (op : operation) (w : world) (k : string) :
  fst (_get_api_key self w) = Ok (Some k) ->
  unauthorized_between w (world_after self op w) = false ->
  un_api_key (world_after self op w) = Some (Some k).
Proof.
  intros K.
  destruct (get_api_key_cases w) as [(k' & w' & E & C & S & _)|E]; rewrite E in K;
    [injection K as ->|discriminate].
  assert (W : world_after self op w = world_after self op w').
  { destruct op as [| |name locations|limit]; cbn [world_after]; f_equal.
    - apply (get_indicators_resolved w w' k); [|exact C].
      rewrite (no_prompt_with_credential w k); rewrite E; reflexivity.
    - apply (get_available_targets_resolved w w' k E C).
    - apply (get_data_for_indicator_resolved w w' k name locations E C).
    - apply (get_top_populated_countries_resolved w w' k limit E C). }
  rewrite W, (unauthorized_between_same w w' _ S).
  apply (credential_kept_cached op w' k C).
Qed.

(** X14: only a 401 clears the credential: when the credential
    resolves to a key and no response received during an operation has
    status 401, the session holds that key when the operation is over,
    whatever else happened (other statuses, transport or decoding
    errors, malformed bodies). *)
Theorem credential_kept_without_401 (op : operation) (w : world) (k : string) :
  fst (_get_api_key self w) = Ok (Some k) ->
  unauthorized_between w (world_after self op w) = false ->
  un_api_key (world_after self op w) = Some (Some k).
Proof. exact (credential_kept op w k). Qed.

(** X20: nothing is kept between calls but the credential: after any
    operation that met no 401, a fetch starts again with a request for
    the catalog, sent with the same key. *)
Theorem catalog_is_requested_by_every_fetch
    (op : operation) (w : world) (k : string) name locations :
  fst (_get_api_key self w) = Ok (Some k) ->
  unauthorized_between w (world_after self op w) = false ->
  exists x rest,
    new_exchanges (world_after self op w)
      (snd (get_data_for_indicator self name locations (world_after self op w)))
    = x :: rest
    /\ ex_url x = base_api_url self ++ "/indicators"
    /\ ex_authorization x = "Bearer " ++ k.
Proof.
  intros K U. pose proof (credential_kept op w k K U) as E.
  assert (C : cached k (world_after self op w)).
  { split; [exact E|].
    destruct (get_api_key_cases w) as [(k' & w' & G & [_ T] & _)|G]; rewrite G in K;
      [injection K as <-; exact T|discriminate]. }
  destruct (fetch_sent_cached _ k name locations C) as [->|(id & ->)];
    eexists _, _; (split; [reflexivity|]); split; reflexivity.
Qed.

(** *** A discovery scoped to one location *)

Lemma location_ids_one (id : pyobj) (items : list pyobj) :
  hashable id = true ->
  Forall (located_at id) items ->
  forall acc, acc = [] \/ acc = [id] ->
              location_ids items acc = Ok (match items with [] => acc | _ => [id] end).
Proof.
  intros Hh W. induction W as [|item rest (d & loc & -> & L & I) W IH]; intros acc A.
  - reflexivity.
  - cbn. rewrite L. cbn. rewrite I. cbn. rewrite Hh.
    assert (S : set_add id acc = [id]).
    { destruct A as [->| ->]; unfold set_add; cbn; [reflexivity|].
      rewrite (py_eq_refl id Hh). reflexivity. }
    rewrite S, (IH [id] (or_intror eq_refl)). destruct rest; reflexivity.
Qed.

(** X15: the data request of the discovery is scoped to the World, so
    when every item of a non-empty 200 answer carries the same
    location identifier, the call returns that identifier alone, for
    any limit of at least one. *)
Theorem discovery_of_one_location
    (w : world) limit r d (items : list pyobj) (id : pyobj) :
  set_is_unordered ->
  data_response w (snd (get_top_populated_countries self limit w)) = Some r ->
  status_code r = 200%Z ->
  json r = inr (VDict d) ->
  dict_get "data" d = Some (VList items) ->
  items <> [] ->
  hashable id = true ->
  Forall (located_at id) items ->
  (1 <= limit)%Z ->
  fst (get_top_populated_countries self limit w) = Ok [id].
Proof.
  intros U D S J Data NE Hh W L.
  rewrite (discovery_success w limit r (VDict d) D S J).
  unfold locations_of. cbn. rewrite Data. cbn.
  pose proof (location_ids_one id items Hh W [] (or_introl eq_refl)) as Ids.
  destruct items as [|item rest]; [congruence|]. cbn [rbind py_truthy].
  rewrite Ids. cbn [rbind].
  rewrite (Permutation_length_1_inv (Permutation_sym (U [id]))).
  unfold slice_to. destruct (0 <=? limit)%Z eqn:P; [|apply Z.leb_gt in P; lia].
  destruct (Z.to_nat limit) eqn:N; [lia|]. cbn. now rewrite firstn_nil.
Qed.

End Properties.

Lemma unauthorized_clears_credential_witness :
  unauthorized_between fresh_session
    (world_after (RT := rejecting) bad_client ListIndicators fresh_session) = true
  /\ un_api_key (world_after (RT := rejecting) bad_client ListIndicators fresh_session)
     = Some None.
Proof.
  split; [reflexivity|].
  apply (@unauthorized_clears_credential rejecting bad_client ListIndicators
           fresh_session).
  reflexivity.
Defined.

Lemma resolution_after_unauthorized_witness :
  fst (_get_api_key bad_client
         (world_after (RT := rejecting) bad_client ListIndicators fresh_session))
  = Ok (Some "bad").
Proof.
  apply (@resolution_after_unauthorized rejecting bad_client ListIndicators
           fresh_session).
  reflexivity.
Defined.

(** C1 refuted as stated: the request carries the environment key
    ["bad"], the service answers 401 and the session credential is
    cleared, yet the next resolution returns ["bad"] again. *)
Lemma invalidated_credential_returned_again :
  let w' := world_after (RT := rejecting) bad_client ListIndicators fresh_session in
  map ex_authorization (exchanges w') = ["Bearer bad"]
  /\ unauthorized_between fresh_session w' = true
  /\ un_api_key w' = Some None
  /\ fst (_get_api_key bad_client w') = Ok (Some "bad").
Proof. cbv zeta. repeat split. Qed.

Lemma location_discovery_never_raises_witness :
  degraded_between fresh_session
    (snd (get_top_populated_countries (RT := rejecting) bad_client 10 fresh_session))
  = true
  /\ fst (get_top_populated_countries (RT := rejecting) bad_client 10 fresh_session)
     = Ok [VInt 900].
Proof.
  split; [reflexivity|].
  apply (@location_discovery_never_raises rejecting bad_client 10 fresh_session).
  right. reflexivity.
Defined.

Lemma int_column_length (col c : list pyobj) :
  int_column col = Some c -> List.length c = List.length col.
Proof.
  revert c. induction col as [|v rest IH]; cbn; intros c E.
  - injection E as <-. reflexivity.
  - destruct (int_of_label v); [|discriminate].
    destruct (int_column rest) as [more|]; [|discriminate].
    injection E as <-. cbn. f_equal. apply IH. reflexivity.
Qed.

Lemma insert_by_slot_permutation (x : pyobj) (l : list pyobj) :
  Permutation (insert_by_slot x l) (x :: l).
Proof.
  induction l as [|y rest IH]; cbn; [reflexivity|].
  destruct (slot x <? slot y)%Z; [reflexivity|].
  rewrite IH. apply perm_swap.
Qed.

Lemma by_slot_permutation (l : list pyobj) : Permutation (by_slot l) l.
Proof.
  induction l as [|x rest IH]; cbn; [reflexivity|].
  rewrite insert_by_slot_permutation. now constructor.
Qed.

Lemma fetch_raises_on_catalog_401_witness :
  fst (get_data_for_indicator (RT := rejecting) bad_client "Total Population" None
         fresh_session)
  = Raise (Exception "Error fetching data for Total Population: Indicator name 'Total Population' not found").
Proof.
  apply (@fetch_raises_on_catalog_401 rejecting bad_client fresh_session
           "Total Population" None (mkResponse 401 (inr VNone)));
    reflexivity.
Defined.

Lemma fetch_errors_name_the_indicator_witness :
  exists msg,
    fst (get_data_for_indicator (RT := serving (respond 500 VNone)) keyed_client
           "Total Population" (Some [900%Z]) fresh_session) = Raise (Exception msg)
    /\ msg = "Error fetching data for Total Population: 500".
Proof.
  destruct (proj1 (@fetch_errors_name_the_indicator (serving (respond 500 VNone))
                     keyed_client fresh_session "Total Population" (Some [900%Z]))
                  (mkResponse 500 (inr VNone)) eq_refl)
    as (msg & E & M & _); [discriminate|discriminate|].
  exists msg. split; [exact E|exact M].
Defined.

Lemma fetch_unknown_indicator_raises_witness :
  exists msg,
    get_data_for_indicator (RT := serving (respond 200 series_body)) keyed_client
      "Median Age" None fresh_session
    = (Raise (Exception msg),
       snd (get_indicator_names (RT := serving (respond 200 series_body)) keyed_client
              (snd (_get_api_key keyed_client fresh_session))))
    /\ contains_str "Median Age" msg = true.
Proof.
  destruct (@fetch_unknown_indicator_raises (serving (respond 200 series_body))
              keyed_client fresh_session "Median Age" None "secret"
              [(VStr "Total Population", VInt 49)] eq_refl eq_refl eq_refl)
    as (msg & E & _ & C).
  exists msg. split; [exact E|exact C].
Defined.

Lemma missing_names_default_to_unknown_witness :
  exists r, make_record (VDict [("timeLabel", VStr "2020"); ("location", VDict [])]) = Ok r
            /\ location r = VStr "Unknown" /\ variant r = VStr "Unknown".
Proof.
  apply (proj2 (proj2 (missing_names_default_to_unknown
                         [("timeLabel", VStr "2020"); ("location", VDict [])]))).
  - right. exists []. split; reflexivity.
  - left. reflexivity.
Defined.

Lemma duplicate_names_keep_last_witness :
  exists catalog,
    fst (get_indicator_names (RT := scripted [respond 200 duplicate_body]) keyed_client
           fresh_session) = Ok catalog
    /\ pydict_get (VStr "Total Population") catalog = Some (VInt 50).
Proof.
  apply (@duplicate_names_keep_last (scripted [respond 200 duplicate_body])
           keyed_client fresh_session (mkResponse 200 (inr duplicate_body))
           [("data", VList [VDict [("name", VStr "Total Population"); ("id", VInt 49)];
                            VDict [("name", VStr "Total Population"); ("id", VInt 50)]])]
           [VDict [("name", VStr "Total Population"); ("id", VInt 49)]] []
           (VDict [("name", VStr "Total Population"); ("id", VInt 50)])
           (VStr "Total Population") (VInt 50));
    try reflexivity.
  - repeat constructor; eexists _, _; split; reflexivity.
  - intros later n i [].
Defined.

Lemma fetch_returns_one_row_per_item_witness :
  exists df,
    fst (get_data_for_indicator (RT := serving (respond 200 series_body)) keyed_client
           "Total Population" (Some [900%Z]) fresh_session) = Ok df
    /\ List.length df = 1%nat.
Proof.
  destruct (@fetch_returns_one_row_per_item (serving (respond 200 series_body))
              keyed_client fresh_session "Total Population" (Some [900%Z])
              (mkResponse 200 (inr series_body)) [("data", VList [world_2020])]
              [world_2020]
              [mkRecord (VStr "2020") (VFloat (7800000000 # 1)) (VStr "World")
                        (VStr "Median")]
              int_column_length eq_refl eq_refl eq_refl eq_refl)
    as (df & E & L & _); [discriminate|reflexivity|].
  exists df. split; [exact E|exact L].
Defined.

(** C6 refuted as stated: the service returns the one item of the
    specification's example, whose [timeLabel] is the string ["2020"];
    the year of the row the call returns is the integer [2020]. *)
Lemma year_is_not_the_time_label :
  fst (get_data_for_indicator (RT := serving (respond 200 series_body)) keyed_client
         "Total Population" (Some [900%Z]) fresh_session)
  = Ok [mkRecord (VInt 2020) (VFloat (7800000000 # 1)) (VStr "World") (VStr "Median")]
  /\ py_get world_2020 "timeLabel" VNone = Ok (VStr "2020")
  /\ VInt 2020 <> VStr "2020".
Proof. split; [reflexivity|]. split; [reflexivity|discriminate]. Qed.

(** The data array of a 200 response is empty: [df['year']] fails on the
    frame without columns and the call raises instead of returning an
    empty table. *)
Lemma empty_data_array_raises :
  fst (get_data_for_indicator (RT := serving (respond 200 empty_data)) keyed_client
         "Total Population" (Some [900%Z]) fresh_session)
  = Raise (Exception "Error fetching data for Total Population: 'year'").
Proof. reflexivity. Qed.

Lemma discovered_locations_witness :
  exists found,
    fst (get_top_populated_countries (RT := serving (respond 200 two_locations_body))
           keyed_client 10 fresh_session) = Ok found
    /\ (Z.of_nat (List.length found) <= 10)%Z.
Proof.
  destruct (@discovered_locations (serving (respond 200 two_locations_body))
              keyed_client fresh_session 10
              (mkResponse 200 (inr two_locations_body))
              [("data", VList [VDict [("location", VDict [("id", VInt 1)])];
                               VDict [("location", VDict [("id", VInt 8)])]])]
              [VDict [("location", VDict [("id", VInt 1)])];
               VDict [("location", VDict [("id", VInt 8)])]]
              [VInt 1; VInt 8]
              by_slot_permutation eq_refl eq_refl eq_refl eq_refl)
    as (found & E & _ & _ & _ & L); [discriminate|reflexivity|].
  exists found. split; [exact E|apply L; lia].
Defined.

(** C4 refuted as stated: the response lists location 1 and then
    location 8; the set holds 8 in slot 0 and 1 in slot 1, and the call
    returns 8 before 1. *)
Lemma discovery_order_is_not_first_appearance :
  fst (get_top_populated_countries (RT := serving (respond 200 two_locations_body))
         keyed_client 10 fresh_session)
  = Ok [VInt 8; VInt 1]
  /\ location_ids [VDict [("location", VDict [("id", VInt 1)])];
                   VDict [("location", VDict [("id", VInt 8)])]] []
     = Ok [VInt 1; VInt 8]
  /\ [VInt 8; VInt 1] <> [VInt 1; VInt 8].
Proof. split; [reflexivity|]. split; [reflexivity|discriminate]. Qed.

(** ** Properties of the dashboard *)

Lemma distinct_app_inv (l r : list pyobj) (x : pyobj) :
  distinct (l ++ x :: r)%list ->
  distinct (l ++ r)%list /\ forall y, In y l -> py_eq y x = false.
Proof.
  induction l as [|a l IH]; cbn; intros D.
  - inversion D; subst. split; [assumption|intros y []].
  - inversion D as [|? ? Ha Hl]; subst. destruct (IH Hl) as [D' F]. split.
    + constructor; [|exact D']. intros y Hy. apply Ha.
      apply in_app_or in Hy. apply in_or_app. destruct Hy; [now left|right; now right].
    + intros y [<-|Hy]; [|apply F, Hy]. apply Ha, in_or_app. right. now left.
Qed.

Lemma pydict_set_fresh (k v : pyobj) (d : pydict) :
  (forall y, In y (pydict_keys d) -> py_eq y k = false) ->
  pydict_set k v d = (d ++ [(k, v)])%list.
Proof.
  induction d as [|[k' v'] rest IH]; cbn; intros F; [reflexivity|].
  rewrite (F k' (or_introl eq_refl)). f_equal. apply IH.
  intros y Hy. apply F. now right.
Qed.

Lemma contains_str_empty (s : string) : contains_str "" s = true.
Proof. destruct s; reflexivity. Qed.

Section DashboardProperties.

Context `{RT : Runtime}.
Variable environ : string -> option string.
Variable lower : string -> string.

Lemma load_indicators_fresh (app : app_session) (w : world) :
  all_indicators app = None ->
  exists catalog w',
    load_indicators environ app w = (Ok (mkApp (Some catalog) (Some [900%Z])), w')
    /\ exchanges w' = exchanges (snd (get_indicator_names (init environ) w))
    /\ (catalog = [] \/ fst (get_indicator_names (init environ) w) = Ok catalog).
Proof.
  intros N. unfold load_indicators. rewrite N.
  unfold try_except, bind, ret, st_show.
  destruct (get_indicator_names (init environ) w) as [[names|e] w1]; cbn.
  - exists names, w1. auto.
  - exists [], (with_ui (StError ("Error loading indicators: " ++ str_exn e)) w1). auto.
Qed.

(** X16: loading the catalog at the start of the script never raises
    and leaves a catalog in the session; once a catalog is there,
    running the block again changes nothing and sends nothing. *)
Theorem indicators_are_loaded_once (app : app_session) (w : world) :
  exists app' w',
    load_indicators environ app w = (Ok app', w')
    /\ all_indicators app' <> None
    /\ (all_indicators app = None -> selected_locations app' = Some [900%Z])
    /\ load_indicators environ app' w' = (Ok app', w').
Proof.
  destruct (all_indicators app) as [c|] eqn:A.
  - exists app, w. unfold load_indicators. rewrite A.
    repeat split; auto; discriminate.
  - destruct (load_indicators_fresh app w A) as (catalog & w' & E & _).
    eexists _, _. split; [exact E|]. repeat split; cbn; auto; discriminate.
Qed.

Lemma get_indicator_names_not_200 (self : UN_Population) (w : world) :
  (forall r, catalog_response w (snd (get_indicator_names self w)) = Some r ->
             status_code r <> 200%Z) ->
  fst (get_indicator_names self w) = Ok []
  \/ exists e, fst (get_indicator_names self w) = Raise e.
Proof.
  destruct (check_api_key_input_cases self w)
    as [(k & w' & E & C & S)|(w' & E & S & _)].
  - rewrite (get_indicator_names_resolved self w w' k E C).
    rewrite (get_indicator_names_cached self w' k C). cbn zeta.
    intros H.
    destruct (ex_outcome (indicators_exchange self k w')) as [m|r1] eqn:X;
      [right; eexists; reflexivity|].
    destruct (status_code r1 =? 200)%Z eqn:S2;
      [|destruct (status_code r1 =? 401)%Z eqn:S4;
        [left; reflexivity|right; eexists; reflexivity]].
    exfalso. apply (H r1); [|apply Z.eqb_eq, S2].
    unfold catalog_response, new_exchanges. cbn. rewrite <- S, skipn_length_app.
    cbn. cbn in X. rewrite X. reflexivity.
  - intros _. left. unfold get_indicator_names, get_indicators, bind. rewrite E.
    reflexivity.
Qed.

(** X17: unless the catalog request of the first run is answered 200,
    the catalog stored in the session is empty: without a credential,
    on a transport failure, on 401 and on any other status the
    dashboard starts, and stays, with no indicator to select. *)
Theorem startup_failure_leaves_an_empty_catalog (app : app_session) (w : world) :
  all_indicators app = None ->
  (forall r, catalog_response w (snd (load_indicators environ app w)) = Some r ->
             status_code r <> 200%Z) ->
  exists w',
    load_indicators environ app w = (Ok (mkApp (Some []) (Some [900%Z])), w')
    /\ load_indicators environ (mkApp (Some []) (Some [900%Z])) w'
       = (Ok (mkApp (Some []) (Some [900%Z])), w').
Proof.
  intros N H. destruct (load_indicators_fresh app w N) as (catalog & w' & E & X & C).
  rewrite E in H. cbn [snd] in H.
  assert (F : forall r, catalog_response w (snd (get_indicator_names (init environ) w))
                        = Some r -> status_code r <> 200%Z).
  { intros r R. apply H. revert R. unfold catalog_response, new_exchanges.
    rewrite X. auto. }
  assert (catalog = []) as ->.
  { destruct C as [->|C]; [reflexivity|].
    destruct (get_indicator_names_not_200 (init environ) w F) as [G|(e & G)];
      congruence. }
  exists w'. split; [exact E|reflexivity].
Qed.

Lemma filtered_indicators_append (search_term : string) (items acc : pydict) :
  Forall is_string (pydict_keys items) ->
  distinct (pydict_keys acc ++ pydict_keys items)%list ->
  filtered_indicators lower search_term items acc
  = Ok (acc ++ filter (matches_search lower search_term) items)%list.
Proof.
  revert acc. induction items as [|[name id] rest IH]; intros acc S D; cbn.
  - now rewrite app_nil_r.
  - inversion S as [|? ? [s ->] S']; subst. cbn in D.
    destruct (distinct_app_inv _ _ _ D) as [D' F].
    unfold matches_search at 1. cbn [fst].
    destruct (contains_str (lower search_term) (lower s)).
    + rewrite (pydict_set_fresh _ _ _ F), IH; auto.
      * now rewrite <- app_assoc.
      * unfold pydict_keys in *. rewrite map_app, <- app_assoc. exact D.
    + apply IH; auto.
Qed.

(** X18: for a catalog whose names are strings (and, as in any dict,
    pairwise different), the indicators offered in the sidebar are the
    bindings of the catalog whose name contains the search term, case
    aside, in catalog order; the selection proposed by default is the
    first three of their names; and with an empty search term (its
    lower case being empty) every indicator is offered. *)
Theorem sidebar_offers_matching_indicators (search_term : string) (catalog : pydict) :
  Forall is_string (pydict_keys catalog) ->
  distinct (pydict_keys catalog) ->
  exists offered,
    filtered_indicators lower search_term catalog [] = Ok offered
    /\ offered = filter (matches_search lower search_term) catalog
    /\ default_selection offered = firstn 3 (pydict_keys offered)
    /\ (search_term = "" -> lower "" = "" -> offered = catalog).
Proof.
  intros S D. eexists. split; [apply (filtered_indicators_append _ _ [] S D)|].
  cbn [app]. split; [reflexivity|]. split.
  - unfold default_selection. destruct (filter _ catalog); reflexivity.
  - intros -> L. clear D.
    induction catalog as [|[name id] rest IH]; cbn; [reflexivity|].
    inversion S as [|? ? [s ->] S']; subst.
    unfold matches_search at 1. cbn [fst]. rewrite L, contains_str_empty.
    f_equal. apply IH, S'.
Qed.

(** X19: a catalog name that is not a string stops the sidebar: when
    the names before it are strings, the comprehension raises
    [AttributeError] for [lower] on that name. *)
Theorem sidebar_fails_on_non_string_name
    (search_term : string) (before after : pydict) (name id : pyobj) :
  Forall is_string (pydict_keys before) ->
  ~ is_string name ->
  forall acc,
    filtered_indicators lower search_term (before ++ (name, id) :: after)%list acc
    = Raise (AttributeError name "lower").
Proof.
  intros S N. induction before as [|[n i] rest IH]; intros acc; cbn.
  - destruct name; try reflexivity. exfalso. apply N. eexists. reflexivity.
  - inversion S as [|? ? [s ->] S']; subst.
    destruct (contains_str (lower search_term) (lower s)); apply IH, S'.
Qed.

End DashboardProperties.

(** ** The further properties on concrete inputs *)

Lemma prompt_without_credential_witness :
  exists w',
    _check_api_key_input keyless_client typed_session = (Ok (Some "typed"), w')
    /\ un_api_key w' = Some (Some "typed").
Proof.
  destruct (prompt_without_credential keyless_client typed_session eq_refl)
    as (r & w' & E & _ & _ & R & U).
  exists w'. rewrite E, R. split; [reflexivity|exact U].
Defined.

Lemma no_credential_no_request_witness :
  exchanges (world_after (RT := rejecting) keyless_client
               (FetchSeries "Total Population" None) typed_session) = []
  /\ fst (get_data_for_indicator (RT := rejecting) keyless_client "Total Population"
            None typed_session) = Ok [].
Proof.
  destruct (@no_credential_no_request rejecting keyless_client typed_session
              (FetchSeries "Total Population" None) eq_refl)
    as (E & _ & R); [discriminate|].
  split; [exact E|exact R].
Defined.

Lemma fetch_requests_the_catalog_identifier_witness :
  map ex_url (new_exchanges fresh_session
                (snd (get_data_for_indicator (RT := serving (respond 200 series_body))
                        keyed_client "Total Population" (Some [900%Z; 4%Z])
                        fresh_session)))
  = ["https://population.un.org/dataportalapi/api/v1/indicators";
     "https://population.un.org/dataportalapi/api/v1/data/indicators/49/locations/900,4"].
Proof.
  apply (@fetch_requests_the_catalog_identifier (serving (respond 200 series_body))
           keyed_client fresh_session "Total Population" (Some [900%Z; 4%Z])
           (mkResponse 200 (inr catalog_body)) catalog_body
           [(VStr "Total Population", VInt 49)] (VInt 49));
    reflexivity.
Defined.

Lemma discovery_uses_first_population_indicator_witness :
  map ex_url (new_exchanges fresh_session
                (snd (get_top_populated_countries
                        (RT := scripted [respond 200 three_indicators_body;
                                         respond 200 two_years_body])
                        keyed_client 10 fresh_session)))
  = ["https://population.un.org/dataportalapi/api/v1/indicators";
     "https://population.un.org/dataportalapi/api/v1/data/indicators/49/locations/900"].
Proof.
  apply (proj1 (@discovery_uses_first_population_indicator
                  (scripted [respond 200 three_indicators_body;
                             respond 200 two_years_body])
                  keyed_client fresh_session 10
                  (mkResponse 200 (inr three_indicators_body)) three_indicators_body
                  three_indicators eq_refl eq_refl eq_refl eq_refl
                  ltac:(repeat constructor; eexists; reflexivity))
               (VStr "Total Population") [VStr "Total Population by sex"] (VInt 49));
    reflexivity.
Defined.

Lemma fetch_returns_empty_on_data_401_witness :
  fst (get_data_for_indicator (RT := serving (respond 401 VNone)) keyed_client
         "Total Population" None fresh_session) = Ok []
  /\ un_api_key (snd (get_data_for_indicator (RT := serving (respond 401 VNone))
                        keyed_client "Total Population" None fresh_session))
     = Some None.
Proof.
  apply (@fetch_returns_empty_on_data_401 (serving (respond 401 VNone)) keyed_client
           fresh_session "Total Population" None (mkResponse 401 (inr VNone)));
    reflexivity.
Defined.

Lemma fetch_without_observations_witness :
  fst (get_data_for_indicator (RT := serving (respond 200 empty_data)) keyed_client
         "Total Population" None fresh_session)
  = Raise (Exception "Error fetching data for Total Population: 'year'").
Proof.
  apply (proj2 (@fetch_without_observations (serving (respond 200 empty_data))
                  keyed_client fresh_session "Total Population" None
                  (mkResponse 200 (inr empty_data)) [("data", VList [])]
                  eq_refl eq_refl eq_refl)).
  reflexivity.
Defined.

Lemma fetch_fails_on_first_bad_item_witness :
  fst (get_data_for_indicator (RT := serving (respond 200 bad_item_body)) keyed_client
         "Total Population" None fresh_session)
  = Raise (Exception "Error fetching data for Total Population: built-in error").
Proof.
  apply (@fetch_fails_on_first_bad_item (serving (respond 200 bad_item_body))
           keyed_client fresh_session "Total Population" None
           (mkResponse 200 (inr bad_item_body))
           [("data", VList [world_2020; null_location])]
           [world_2020] [] null_location (AttributeError VNone "get"));
    try reflexivity.
  repeat constructor. eexists. reflexivity.
Defined.

Lemma catalog_keys_follow_the_response_witness :
  exists catalog,
    fst (get_indicator_names (RT := scripted [respond 200 duplicate_body]) keyed_client
           fresh_session) = Ok catalog
    /\ pydict_keys catalog = [VStr "Total Population"].
Proof.
  destruct (@catalog_keys_follow_the_response (scripted [respond 200 duplicate_body])
              keyed_client fresh_session (mkResponse 200 (inr duplicate_body))
              [("data", VList [VDict [("name", VStr "Total Population"); ("id", VInt 49)];
                               VDict [("name", VStr "Total Population"); ("id", VInt 50)]])]
              [VDict [("name", VStr "Total Population"); ("id", VInt 49)];
               VDict [("name", VStr "Total Population"); ("id", VInt 50)]]
              eq_refl eq_refl eq_refl eq_refl
              ltac:(repeat constructor; eexists _, _; split; reflexivity))
    as (catalog & E & K & _).
  exists catalog. split; [exact E|exact K].
Defined.

Lemma catalog_lookup_is_sound_and_complete_witness :
  exists catalog,
    fst (get_indicator_names (RT := scripted [respond 200 three_indicators_body])
           keyed_client fresh_session) = Ok catalog
    /\ pydict_get (VStr "Life Expectancy") catalog = None.
Proof.
  destruct (@catalog_lookup_is_sound_and_complete
              (scripted [respond 200 three_indicators_body])
              keyed_client fresh_session (mkResponse 200 (inr three_indicators_body))
              [("data", VList [VDict [("name", VStr "Median Age"); ("id", VInt 67)];
                               VDict [("name", VStr "Total Population"); ("id", VInt 49)];
                               VDict [("name", VStr "Total Population by sex");
                                      ("id", VInt 70)]])]
              [VDict [("name", VStr "Median Age"); ("id", VInt 67)];
               VDict [("name", VStr "Total Population"); ("id", VInt 49)];
               VDict [("name", VStr "Total Population by sex"); ("id", VInt 70)]]
              eq_refl eq_refl eq_refl eq_refl
              ltac:(repeat constructor; eexists _, _; split; reflexivity))
    as (catalog & E & _ & _).
  exists catalog. split; [exact E|].
  injection E as <-. reflexivity.
Defined.

Lemma catalog_fails_on_incomplete_item_witness :
  fst (get_indicator_names (RT := scripted [respond 200 incomplete_body]) keyed_client
         fresh_session) = Raise (KeyError "id").
Proof.
  apply (proj2 (@catalog_fails_on_incomplete_item
                  (scripted [respond 200 incomplete_body])
                  keyed_client fresh_session (mkResponse 200 (inr incomplete_body))
                  [("data", VList [VDict [("name", VStr "Total Population");
                                          ("id", VInt 49)];
                                   VDict [("name", VStr "Median Age")]])]
                  [VDict [("name", VStr "Total Population"); ("id", VInt 49)]] []
                  [("name", VStr "Median Age")]
                  eq_refl eq_refl eq_refl eq_refl
                  ltac:(repeat constructor; eexists _, _; split; reflexivity)));
    [discriminate|reflexivity].
Defined.

Lemma listing_outcomes_witness :
  fst (get_available_targets (RT := scripted [respond 500 VNone]) keyed_client
         fresh_session)
  = Raise (Exception "Error fetching targets: 500").
Proof.
  apply (@listing_outcomes (scripted [respond 500 VNone]) keyed_client true
           fresh_session
           (mkExchange "https://population.un.org/dataportalapi/api/v1/targets"
                       "Bearer secret" (respond 500 VNone))
           eq_refl).
Defined.

Lemma credential_kept_without_401_witness :
  un_api_key (world_after (RT := serving (respond 500 VNone)) keyed_client
                (FetchSeries "Total Population" None) fresh_session)
  = Some (Some "secret").
Proof.
  apply (@credential_kept_without_401 (serving (respond 500 VNone)) keyed_client
           (FetchSeries "Total Population" None) fresh_session "secret");
    reflexivity.
Defined.

Lemma discovery_of_one_location_witness :
  fst (get_top_populated_countries
         (RT := scripted [respond 200 three_indicators_body; respond 200 two_years_body])
         keyed_client 10 fresh_session)
  = Ok [VInt 900].
Proof.
  apply (@discovery_of_one_location
           (scripted [respond 200 three_indicators_body; respond 200 two_years_body])
           keyed_client fresh_session 10 (mkResponse 200 (inr two_years_body))
           [("data", VList [world_2020;
                            VDict [("timeLabel", VStr "2021");
                                   ("value", VInt 7900000000);
                                   ("location", VDict [("name", VStr "World");
                                                       ("id", VInt 900)]);
                                   ("variant", VDict [("name", VStr "Median")])]])]
           [world_2020;
            VDict [("timeLabel", VStr "2021"); ("value", VInt 7900000000);
                   ("location", VDict [("name", VStr "World"); ("id", VInt 900)]);
                   ("variant", VDict [("name", VStr "Median")])]]
           (VInt 900) by_slot_permutation eq_refl eq_refl eq_refl eq_refl);
    try reflexivity; try discriminate; try lia.
  repeat constructor; eexists _, _; repeat split; reflexivity.
Defined.

Lemma startup_failure_leaves_an_empty_catalog_witness :
  exists w',
    load_indicators (RT := rejecting) (fun _ => Some "bad") (mkApp None None)
      fresh_session
    = (Ok (mkApp (Some []) (Some [900%Z])), w').
Proof.
  destruct (@startup_failure_leaves_an_empty_catalog rejecting (fun _ => Some "bad")
              (mkApp None None) fresh_session eq_refl) as (w' & E & _).
  - intros r [= <-]. discriminate.
  - exists w'. exact E.
Defined.

Lemma sidebar_offers_matching_indicators_witness :
  exists offered,
    filtered_indicators lower_ascii "POP" three_indicators [] = Ok offered
    /\ offered = [(VStr "Total Population", VInt 49);
                  (VStr "Total Population by sex", VInt 70)].
Proof.
  destruct (sidebar_offers_matching_indicators lower_ascii "POP" three_indicators)
    as (offered & E & F & _).
  - repeat constructor; eexists; reflexivity.
  - constructor; [intros y [<-|[<-|[]]]; reflexivity|].
    constructor; [intros y [<-|[]]; reflexivity|].
    constructor; [intros y []|constructor].
  - exists offered. split; [exact E|]. rewrite F. reflexivity.
Defined.

Lemma sidebar_fails_on_non_string_name_witness :
  filtered_indicators lower_ascii "pop"
    [(VStr "Total Population", VInt 49); (VInt 5, VInt 50)] []
  = Raise (AttributeError (VInt 5) "lower").
Proof.
  apply (sidebar_fails_on_non_string_name lower_ascii "pop"
           [(VStr "Total Population", VInt 49)] [] (VInt 5) (VInt 50)).
  - repeat constructor. eexists. reflexivity.
  - intros [s E]. discriminate.
Defined.

Lemma catalog_is_requested_by_every_fetch_witness :
  exists x rest,
    new_exchanges
      (world_after (RT := serving (respond 200 series_body)) keyed_client
         (FetchSeries "Total Population" None) fresh_session)
      (snd (get_data_for_indicator (RT := serving (respond 200 series_body))
              keyed_client "Total Population" None
              (world_after (RT := serving (respond 200 series_body)) keyed_client
                 (FetchSeries "Total Population" None) fresh_session)))
    = x :: rest
    /\ ex_url x = "https://population.un.org/dataportalapi/api/v1/indicators".
Proof.
  destruct (@catalog_is_requested_by_every_fetch (serving (respond 200 series_body))
              keyed_client (FetchSeries "Total Population" None) fresh_session
              "secret" "Total Population" None eq_refl eq_refl)
    as (x & rest & E & U & _).
  exists x, rest. split; [exact E|exact U].
Defined.
